(** * evidently.future.datasets: schema resolution, column statistics and
      the descriptor pipeline

    A shallow embedding of [src/evidently/future/datasets.py].  Python
    objects become records, [Optional] fields become [option], raised
    exceptions become the [Raise] outcome of [result], and the methods that
    mutate a [PandasDataset] in place become state transformers. *)

From Stdlib Require Import ZArith String List Bool Lia PrimFloat Uint63.
From Corelib Require FloatAxioms.
From stdpp Require Import base option list strings gmap pretty.

Open Scope string_scope.
Open Scope list_scope.
Open Scope stdpp_scope.

(** ** Python substrate: exceptions and the two effect monads *)

(** The exceptions the module can raise, with the message where the source
    (or pandas) gives one.  [OutOfFuel] is not a Python exception: it marks a
    modelled loop stopped by its iteration bound. *)
Inductive exn : Type :=
| ValueError (msg : string)
| IndexError (msg : string)
| TypeError (msg : string)
| KeyError (key : string)
| NotImplementedError
| OutOfFuel.

(** The outcome of a Python call: a returned value or a raised exception. *)
Inductive result (A : Type) : Type :=
| Return (a : A)
| Raise (e : exn).
Arguments Return {A} a.
Arguments Raise {A} e.

Definition result_bind {A B : Type} (f : A -> result B) (r : result A) : result B :=
  match r with
  | Return a => f a
  | Raise e => Raise e
  end.

#[global] Instance result_ret : MRet result := @Return.
#[global] Instance result_mbind : MBind result := @result_bind.

(** A method that runs against mutable state [S]: the state after the call is
    kept also when the call raises (Python has no rollback). *)
Definition M (S A : Type) : Type := S -> S * result A.

Definition M_ret {S A : Type} (a : A) : M S A := fun s => (s, Return a).

Definition M_bind {S A B : Type} (m : M S A) (f : A -> M S B) : M S B :=
  fun s =>
    match m s with
    | (s', Return a) => f a s'
    | (s', Raise e) => (s', Raise e)
    end.

Definition M_lift {S A : Type} (r : result A) : M S A := fun s => (s, r).

Definition M_modify {S : Type} (f : S -> S) : M S unit := fun s => (f s, Return tt).

Definition M_get {S : Type} : M S S := fun s => (s, Return s).

Notation "'do' x <- m ; k" := (M_bind m (fun x => k))
  (at level 10, x name, m at level 100, k at level 200).
Notation "m ;; k" := (M_bind m (fun _ => k))
  (at level 100, k at level 200, right associativity).

(** [for x in xs: body x], threading the state and stopping at the first
    exception. *)
Fixpoint M_for {S A : Type} (xs : list A) (body : A -> M S unit) : M S unit :=
  match xs with
  | [] => M_ret tt
  | x :: xs' => body x ;; M_for xs' body
  end.

(** Python's rich comparison [a < b]: a class without [__lt__] (such as a
    [dataclass] declared without [order=True]) makes the operator raise
    [TypeError]. *)
Class PyLt (A : Type) : Type := py__lt__ : option (A -> A -> bool).

Definition py_lt {A : Type} `{PyLt A} (a b : A) : result bool :=
  match py__lt__ with
  | Some lt => Return (lt a b)
  | None => Raise (TypeError "'<' not supported between instances")
  end.

#[global] Instance Z_PyLt : PyLt Z := Some Z.ltb.

(** True division [a / b] of two integer counts, as a binary64 float.  The
    counts that pandas returns ([Series.count()], the entries of
    [groupby(...).count()]) are numpy integers, so [/] is numpy's division:
    on a zero divisor it does not raise [ZeroDivisionError], it yields [nan]
    (for 0/0) or an infinity, with a warning. *)
Definition float_of_Z (z : Z) : float := PrimFloat.of_uint63 (Uint63.of_Z z).

Definition truediv (a b : Z) : float := PrimFloat.div (float_of_Z a) (float_of_Z b).

(** ** pandas substrate: values, Series, DataFrame *)

(** A cell of a column. [PyNone] stands for every missing marker that is not a
    float ([None], [NaT], [pd.NA]); a float [nan] is missing too. *)
Inductive scalar : Type :=
| PyNone
| PyFloat (f : float)
| PyInt (z : Z)
| PyBool (b : bool)
| PyStr (s : string)
| PyList (items : list Z)
| PyTuple (items : list Z)
| PyDatetime (t : Z).

Definition isna (v : scalar) : bool :=
  match v with
  | PyNone => true
  | PyFloat f => PrimFloat.is_nan f
  | _ => false
  end.

Definition is_str (v : scalar) : bool :=
  match v with PyStr _ => true | _ => false end.

Definition is_list_or_tuple (v : scalar) : bool :=
  match v with PyList _ | PyTuple _ => true | _ => false end.

Definition list_Z_eqb (xs ys : list Z) : bool := bool_decide (xs = ys).

(** [==] on cells, as the hash tables behind [nunique] and [value_counts]
    compare them. *)
Definition scalar_eqb (a b : scalar) : bool :=
  match a, b with
  | PyNone, PyNone => true
  | PyFloat x, PyFloat y => PrimFloat.eqb x y
  | PyInt x, PyInt y => Z.eqb x y
  | PyBool x, PyBool y => Bool.eqb x y
  | PyStr x, PyStr y => String.eqb x y
  | PyList x, PyList y => list_Z_eqb x y
  | PyTuple x, PyTuple y => list_Z_eqb x y
  | PyDatetime x, PyDatetime y => Z.eqb x y
  | _, _ => false
  end.

(** [np.isinf] on one cell. *)
Definition np_isinf (v : scalar) : bool :=
  match v with
  | PyFloat f => PrimFloat.is_infinity f
  | _ => false
  end.

Module Series.

Record t : Type := mk {
  dtype_name : string;
  values : list scalar
}.

Definition dropna (s : t) : t :=
  mk (dtype_name s) (List.filter (fun v => negb (isna v)) (values s)).

(** [Series.count()]: the number of non-missing cells. *)
Definition count (s : t) : Z :=
  Z.of_nat (length (List.filter (fun v => negb (isna v)) (values s))).

Fixpoint distinct (vs : list scalar) : list scalar :=
  match vs with
  | [] => []
  | v :: vs' => v :: List.filter (fun w => negb (scalar_eqb v w)) (distinct vs')
  end.

(** [Series.nunique()]: the number of distinct non-missing cells. *)
Definition nunique (s : t) : Z :=
  Z.of_nat (length (distinct (values (dropna s)))).

(** [Series.iloc[i]]: positional access, negative positions counted from the
    end; pandas raises [IndexError] outside the range. *)
Definition iloc (s : t) (i : Z) : result scalar :=
  let n := Z.of_nat (length (values s)) in
  let j := if (i <? 0)%Z then (n + i)%Z else i in
  if ((0 <=? j) && (j <? n))%Z then
    match values s !! Z.to_nat j with
    | Some v => Return v
    | None => Raise (IndexError "single positional indexer is out-of-bounds")
    end
  else Raise (IndexError "single positional indexer is out-of-bounds").

Definition occurrences (v : scalar) (vs : list scalar) : Z :=
  Z.of_nat (length (List.filter (scalar_eqb v) vs)).

Fixpoint insert_by_count (x : scalar * Z) (xs : list (scalar * Z)) : list (scalar * Z) :=
  match xs with
  | [] => [x]
  | y :: ys => if (snd y <=? snd x)%Z then x :: y :: ys else y :: insert_by_count x ys
  end.

(** [Series.value_counts().items()]: each distinct non-missing value with its
    number of occurrences, by descending count, equal counts in order of
    first appearance. *)
Definition value_counts (s : t) : list (scalar * Z) :=
  let vs := values (dropna s) in
  foldr insert_by_count [] (List.map (fun v => (v, occurrences v vs)) (distinct vs)).

(** [data.groupby(keys).count()]: for each key present, the number of
    non-missing cells of [data] in its group, keys in ascending order. *)
Definition groupby_count (keys : list bool) (s : t) : list (bool * Z) :=
  let rows := zip keys (values s) in
  let group (k : bool) :=
    List.filter (fun r => Bool.eqb (fst r) k) rows in
  let size (k : bool) :=
    Z.of_nat (length (List.filter (fun r => negb (isna (snd r))) (group k))) in
  (if group false is [] then [] else [(false, size false)]) ++
  (if group true is [] then [] else [(true, size true)]).

(** [counts.get(key, default)]. *)
Definition get (counts : list (bool * Z)) (key : bool) (default : Z) : Z :=
  match List.find (fun r => Bool.eqb (fst r) key) counts with
  | Some r => snd r
  | None => default
  end.

End Series.

Module DataFrame.

(** A frame: the length of its index and its labelled columns in order.
    Column labels are strings and pairwise distinct. *)
Record t : Type := mk {
  index_size : Z;
  items : list (string * Series.t)
}.

(** [df.columns.tolist()]. *)
Definition columns (df : t) : list string := List.map fst (items df).

Fixpoint set_item (cols : list (string * Series.t)) (key : string) (v : Series.t)
  : list (string * Series.t) :=
  match cols with
  | [] => [(key, v)]
  | (k, w) :: cols' =>
      if String.eqb k key then (k, v) :: cols' else (k, w) :: set_item cols' key v
  end.

(** [df[key] = series]: replaces the column in place when the label exists,
    appends it as the last column otherwise. *)
Definition setitem (df : t) (key : string) (v : Series.t) : t :=
  mk (index_size df) (set_item (items df) key v).

(** [df.shape]. *)
Definition shape (df : t) : Z * Z := (index_size df, Z.of_nat (length (items df))).

(** [df[key]]: the column under a label; pandas raises [KeyError] for a label
    the frame does not have. *)
Definition getitem (df : t) (key : string) : result Series.t :=
  match List.find (fun item => String.eqb (fst item) key) (items df) with
  | Some item => Return (snd item)
  | None => Raise (KeyError key)
  end.

(** The cells of a column at the rows where the mask is [True]. *)
Definition keep (mask : list bool) (s : Series.t) : Series.t :=
  Series.mk (Series.dtype_name s) (List.map snd (List.filter fst (zip mask (Series.values s)))).

(** [df[mask]]: the frame restricted to the rows where the boolean mask is
    [True]; every column keeps its label, its dtype and its position. *)
Definition select (mask : list bool) (df : t) : t :=
  mk (Z.of_nat (length (List.filter (fun b : bool => b) mask)))
     (List.map (fun item : string * Series.t => (fst item, keep mask (snd item))) (items df)).

End DataFrame.

(** The reductions of a numerical Series that pandas computes in floating
    point with its own algorithms ([evidently] only stores their results). *)
Class SeriesReductions : Type := {
  Series_max : Series.t -> float;
  Series_min : Series.t -> float;
  Series_mean : Series.t -> float;
  Series_std : Series.t -> float;
  Series_quantile : Series.t -> float -> float
}.

(** The options bag, threaded unchanged from the caller to the descriptors
    ([evidently.options.base]). *)
Class OptionsBag : Type := {
  AnyOptions : Type;
  Options : Type;
  Options_from_any_options : AnyOptions -> Options
}.

(** The comparison [value == label] that pandas applies cell by cell in
    [series == label]. *)
Class CellComparison : Type := {
  cell_eq : scalar -> scalar -> bool
}.

(** ** Semantic column types ([evidently.core.ColumnType]) *)

Inductive ColumnType : Type :=
| Numerical
| Categorical
| Text
| Datetime
| Date
| Id
| List
| Unknown.

#[global] Instance ColumnType_eq_dec : EqDecision ColumnType.
Proof. solve_decision. Defined.

(** [Label]: the values a column takes, used as dictionary keys. *)
Definition Label : Type := scalar.

Inductive ColumnRole : Type :=
| Unset
| Target
| Output
| Feature
| DescriptorRole
| UserId
| ItemId
| Input
| Context_
| Example_.

(** ** Task definitions *)

Module BinaryClassification.

Record t : Type := mk {
  name : string;
  target : string;
  prediction_labels : option string;
  prediction_probas : option string;
  pos_label : Label;
  labels : option (list (Label * string))
}.

Definition invalid_configuration : string :=
  "Invalid BinaryClassification configuration: target and one of (labels or probas) should be set".

(** [BinaryClassification.__init__]; an argument is [None] when its keyword
    is omitted ([name] then takes its default ["default"]). *)
Definition __init__
    (name_ : option string)
    (target_ : option string)
    (prediction_labels_ : option string)
    (prediction_probas_ : option string)
    (pos_label_ : option Label)
    (labels_ : option (list (Label * string))) : result t :=
  let name := default "default" name_ in
  if bool_decide (target_ = None)
     && bool_decide (prediction_labels_ = None)
     && bool_decide (prediction_probas_ = None)
     && (if pos_label_ is None then true else false)
     && (if labels_ is None then true else false)
  then
    Return (mk name "target" None (Some "prediction") (PyInt 1) None)
  else
    match target_ with
    | None =>
        Raise (ValueError invalid_configuration)
    | Some target =>
        if bool_decide (prediction_labels_ = None) && bool_decide (prediction_probas_ = None)
        then
          Raise (ValueError invalid_configuration)
        else
          Return (mk name target prediction_labels_ prediction_probas_
                     (if pos_label_ is Some l then l else PyInt 1) labels_)
    end.

End BinaryClassification.

Module MulticlassClassification.

Record t : Type := mk {
  name : string;
  target : string;
  prediction_labels : option string;
  prediction_probas : option (list string);
  labels : option (list (Label * string))
}.

Definition invalid_configuration : string :=
  "Invalid MulticlassClassification configuration: target and one of (labels or probas) should be set".

Definition __init__
    (name_ : option string)
    (target_ : option string)
    (prediction_labels_ : option string)
    (prediction_probas_ : option (list string))
    (labels_ : option (list (Label * string))) : result t :=
  let name := default "default" name_ in
  if bool_decide (target_ = None)
     && bool_decide (prediction_labels_ = None)
     && bool_decide (prediction_probas_ = None)
     && (if labels_ is None then true else false)
  then
    Return (mk name "target" (Some "prediction") None None)
  else
    match target_ with
    | None =>
        Raise (ValueError invalid_configuration)
    | Some target =>
        if bool_decide (prediction_labels_ = None) && bool_decide (prediction_probas_ = None)
        then
          Raise (ValueError invalid_configuration)
        else
          Return (mk name target prediction_labels_ prediction_probas_ labels_)
    end.

End MulticlassClassification.

(** [Classification = Union[BinaryClassification, MulticlassClassification]]. *)
Inductive Classification : Type :=
| Binary (c : BinaryClassification.t)
| Multiclass (c : MulticlassClassification.t).

Definition Classification_name (c : Classification) : string :=
  match c with
  | Binary b => BinaryClassification.name b
  | Multiclass m => MulticlassClassification.name m
  end.

Module Regression.

Record t : Type := mk {
  name : string;
  target : string;
  prediction : string
}.

End Regression.

Module Recsys.

Record t : Type := mk {
  name : string;
  user_id : string;
  target : string;
  prediction : string
}.

End Recsys.

Inductive LLMDefinition : Type :=
| Completion
| RAG.

(** ** The schema *)

Module DataDefinition.

Record t : Type := mk {
  id_column : option string;
  timestamp : option string;
  numerical_columns : option (list string);
  categorical_columns : option (list string);
  text_columns : option (list string);
  datetime_columns : option (list string);
  classification : option (list Classification);
  regression : option (list Regression.t);
  llm : option LLMDefinition;
  numerical_descriptors : list string;
  categorical_descriptors : list string;
  ranking : option (list Recsys.t)
}.

(** [DataDefinition.__init__]: every field is stored as given; the two
    descriptor lists start empty when omitted. *)
Definition __init__
    (id_column_ timestamp_ : option string)
    (numerical_columns_ categorical_columns_ text_columns_ datetime_columns_ : option (list string))
    (classification_ : option (list Classification))
    (regression_ : option (list Regression.t))
    (llm_ : option LLMDefinition)
    (numerical_descriptors_ categorical_descriptors_ : option (list string))
    (ranking_ : option (list Recsys.t)) : t :=
  mk id_column_ timestamp_
     numerical_columns_ categorical_columns_ text_columns_ datetime_columns_
     classification_ regression_ llm_
     (if numerical_descriptors_ is Some l then l else [])
     (if categorical_descriptors_ is Some l then l else [])
     ranking_.

Definition get_numerical_columns (self : t) : list string :=
  default [] (numerical_columns self) ++ numerical_descriptors self.

Definition get_categorical_columns (self : t) : list string :=
  default [] (categorical_columns self) ++ categorical_descriptors self.

Definition get_text_columns (self : t) : list string :=
  default [] (text_columns self).

Definition get_datetime_columns (self : t) : list string :=
  default [] (datetime_columns self).

Definition get_column_type (self : t) (column_name : string) : ColumnType :=
  if bool_decide (column_name ∈ get_numerical_columns self) then Numerical
  else if bool_decide (column_name ∈ get_categorical_columns self) then Categorical
  else if bool_decide (column_name ∈ get_text_columns self) then Text
  else if bool_decide (column_name ∈ get_datetime_columns self) then Datetime
  else if bool_decide (Some column_name = timestamp self) then Date
  else if bool_decide (Some column_name = id_column self) then Id
  else Unknown.

Definition more_than_one (kind id : string) : string :=
  "More than one " +:+ kind +:+ " with id " +:+ id.

(** The common body of the three lookups: filter by name, then [None] for no
    match, [ValueError] for several, the single match otherwise. *)
Definition lookup_by_name {A : Type} (name : A -> string) (kind : string)
    (items : option (list A)) (id : string) : result (option A) :=
  let item_list := List.filter (fun x => String.eqb (name x) id) (default [] items) in
  if (length item_list =? 0)%nat then Return None
  else if (1 <? length item_list)%nat then
    Raise (ValueError (more_than_one kind id))
  else
    match item_list !! 0%nat with
    | Some item => Return (Some item)
    | None => Raise (IndexError "list index out of range")
    end.

Definition get_classification (self : t) (classification_id : string)
  : result (option Classification) :=
  lookup_by_name Classification_name "classification" (classification self) classification_id.

Definition get_ranking (self : t) (ranking_id : string) : result (option Recsys.t) :=
  lookup_by_name Recsys.name "ranking" (ranking self) ranking_id.

Definition get_regression (self : t) (regression_id : string) : result (option Regression.t) :=
  lookup_by_name Regression.name "regression" (regression self) regression_id.

Definition get_columns (self : t) (types : list ColumnType) : list string :=
  (if bool_decide (Numerical ∈ types) then get_numerical_columns self else []) ++
  (if bool_decide (Categorical ∈ types) then get_categorical_columns self else []) ++
  (if bool_decide (Text ∈ types) then get_text_columns self else []) ++
  (if bool_decide (Datetime ∈ types) then get_datetime_columns self else []).

End DataDefinition.

Module DatasetColumn.

Record t : Type := mk {
  type : ColumnType;
  data : Series.t
}.

End DatasetColumn.

(** [_determine_desccriptor_column_name]: the [while] loop, with [index] and
    [key] as its variables.  [fuel] bounds the number of iterations; [None]
    means the bound was reached before the loop ended. *)
Fixpoint determine_loop (fuel : nat) (alias : string) (columns : list string)
    (index : nat) (key : string) : option string :=
  if bool_decide (key ∈ columns) then
    match fuel with
    | O => None
    | S fuel' =>
        determine_loop fuel' alias columns (S index) (alias +:+ "_" +:+ pretty index)
    end
  else Some key.

(** The loop is entered with [index = 1] and [key = alias]; one iteration per
    column of the table is always enough (see [determine_loop_total]). *)
Definition _determine_desccriptor_column_name (alias : string) (columns : list string)
    : option string :=
  determine_loop (length columns) alias columns 1 alias.

(** ** Statistics *)

Module StatCountValue.

Record t : Type := mk {
  count : Z;
  share : float
}.

(** [@dataclasses.dataclass] without [order=True]: no [__lt__]. *)
#[global] Instance lt : PyLt t := None.

End StatCountValue.

Module GeneralColumnStats.

Record t : Type := mk {
  missing_values : StatCountValue.t
}.

End GeneralColumnStats.

Module NumericalColumnStats.

Record t : Type := mk {
  max : float;
  min : float;
  mean : float;
  std : float;
  quantiles : list (string * float);
  infinite : StatCountValue.t
}.

End NumericalColumnStats.

Module LabelStats.

Record t : Type := mk {
  count : StatCountValue.t
}.

End LabelStats.

Module CategoricalColumnStats.

Record t : Type := mk {
  unique_count : Z;
  label_stats : list (Label * LabelStats.t)
}.

(** [self.label_stats[key]]. *)
Definition getitem (stats : list (Label * LabelStats.t)) (key : Label) : result LabelStats.t :=
  match List.find (fun kv => scalar_eqb (fst kv) key) stats with
  | Some kv => Return (snd kv)
  | None => Raise (KeyError "label")
  end.

(** The body of the [for key, value in self.label_stats.items()] loop of
    [most_common], from the current candidate to the next one. *)
Definition most_common_step (self : t) (most_common : option Label)
    (item : Label * LabelStats.t) : result (option Label) :=
  let (key, value) := item in
  match most_common with
  | None => Return (Some key)
  | Some current =>
      current_stats ← getitem (label_stats self) current;
      less ← py_lt (LabelStats.count current_stats) (LabelStats.count value);
      if less : bool then Return (Some key) else Return (Some current)
  end.

Fixpoint most_common_loop (self : t) (most_common : option Label)
    (items : list (Label * LabelStats.t)) : result (option Label) :=
  match items with
  | [] => Return most_common
  | item :: items' =>
      next ← most_common_step self most_common item;
      most_common_loop self next items'
  end.

Definition most_common (self : t) : result (option (Label * LabelStats.t)) :=
  found ← most_common_loop self None (label_stats self);
  match found with
  | None => Return None
  | Some label =>
      stats ← getitem (label_stats self) label;
      Return (Some (label, stats))
  end.

End CategoricalColumnStats.

Module ColumnStats.

Record t : Type := mk {
  general_stats : GeneralColumnStats.t;
  numerical_stats : option NumericalColumnStats.t;
  categorical_stats : option CategoricalColumnStats.t
}.

End ColumnStats.

Module DatasetStats.

Record t : Type := mk {
  row_count : Z;
  column_count : Z;
  column_stats : gmap string ColumnStats.t
}.

End DatasetStats.

(** ** Column type inference *)

Definition INTEGER_CARDINALITY_LIMIT : Z := 10.

Definition infer_column_type (column_data : Series.t) : result ColumnType :=
  let dtype := Series.dtype_name column_data in
  if String.prefix "float" dtype then Return Numerical
  else if String.prefix "int" dtype then
    if (Series.nunique column_data <=? INTEGER_CARDINALITY_LIMIT)%Z
    then Return Categorical
    else Return Numerical
  else if bool_decide (dtype ∈ ["string"]) then
    if PrimFloat.ltb (PrimFloat.mul (float_of_Z (Series.count column_data)) 0.5%float)
                     (float_of_Z (Series.nunique column_data))
    then Return Text
    else Return Categorical
  else if String.eqb dtype "object" then
    let without_na := Series.dropna column_data in
    both_str ←
      (first ← Series.iloc without_na 0;
       if is_str first
       then last ← Series.iloc without_na (-1); Return (is_str last)
       else Return false);
    if both_str : bool then
      if PrimFloat.ltb (PrimFloat.mul (float_of_Z (Series.count column_data)) 0.5%float)
                       (float_of_Z (Series.nunique column_data))
      then Return Text
      else Return Categorical
    else
      both_seq ←
        (first ← Series.iloc without_na 0;
         if is_list_or_tuple first
         then last ← Series.iloc without_na (-1); Return (is_list_or_tuple last)
         else Return false);
      if both_seq : bool then Return List else Return Unknown
  else if bool_decide (dtype ∈ ["bool"; "category"]) then Return Categorical
  else if String.prefix "datetime" dtype then Return Datetime
  else Return Unknown.

(** ** Per-column statistics *)

Section Stats.
Context `{SeriesReductions}.

Definition _collect_numerical_stats (data : Series.t) : NumericalColumnStats.t :=
  let infinite_count :=
    Series.get (Series.groupby_count (List.map np_isinf (Series.values data)) data) true 0 in
  NumericalColumnStats.mk
    (Series_max data)
    (Series_min data)
    (Series_mean data)
    (Series_std data)
    [("p25", Series_quantile data 0.25%float); ("p75", Series_quantile data 0.75%float)]
    (StatCountValue.mk infinite_count (truediv infinite_count (Series.count data))).

Definition _collect_categorical_stats (data : Series.t) : CategoricalColumnStats.t :=
  let total_count := Series.count data in
  CategoricalColumnStats.mk
    (Series.nunique data)
    (List.map (fun item : scalar * Z =>
                 let (label, count) := item in
                 (label, LabelStats.mk (StatCountValue.mk count (truediv count total_count))))
              (Series.value_counts data)).

Definition _collect_stats (column_type : ColumnType) (data : Series.t) : ColumnStats.t :=
  let numerical_stats :=
    if bool_decide (column_type = Numerical) then Some (_collect_numerical_stats data) else None in
  let categorical_stats :=
    if bool_decide (column_type = Categorical) then Some (_collect_categorical_stats data) else None in
  ColumnStats.mk
    (GeneralColumnStats.mk (StatCountValue.mk 0 0%float))
    numerical_stats
    categorical_stats.

End Stats.

(** ** The dataset *)

(** The four lists that [_generate_data_definition] fills while it walks the
    columns. *)
Record buckets : Type := mk_buckets {
  numerical : list string;
  categorical : list string;
  text : list string;
  datetime : list string
}.

(** What [Descriptor.generate_data] returns: one column, or a mapping from
    display names to columns (in insertion order). *)
Inductive generated : Type :=
| OneColumn (column : DatasetColumn.t)
| ManyColumns (columns : list (string * DatasetColumn.t)).

Module PandasDataset.

Record t : Type := mk {
  _data : DataFrame.t;
  _data_definition : DataDefinition.t;
  _dataset_stats : DatasetStats.t
}.

(** Field assignments on the owned schema and statistics. *)
Definition set_datetime_columns (v : option (list string)) (d : DataDefinition.t) :=
  let 'DataDefinition.mk i ts n c tx _ cl r l nd cd rk := d in
  DataDefinition.mk i ts n c tx v cl r l nd cd rk.
Definition set_numerical_columns (v : option (list string)) (d : DataDefinition.t) :=
  let 'DataDefinition.mk i ts _ c tx dt cl r l nd cd rk := d in
  DataDefinition.mk i ts v c tx dt cl r l nd cd rk.
Definition set_categorical_columns (v : option (list string)) (d : DataDefinition.t) :=
  let 'DataDefinition.mk i ts n _ tx dt cl r l nd cd rk := d in
  DataDefinition.mk i ts n v tx dt cl r l nd cd rk.
Definition set_text_columns (v : option (list string)) (d : DataDefinition.t) :=
  let 'DataDefinition.mk i ts n c _ dt cl r l nd cd rk := d in
  DataDefinition.mk i ts n c v dt cl r l nd cd rk.
Definition set_timestamp (v : option string) (d : DataDefinition.t) :=
  let 'DataDefinition.mk i _ n c tx dt cl r l nd cd rk := d in
  DataDefinition.mk i v n c tx dt cl r l nd cd rk.
Definition set_numerical_descriptors (v : list string) (d : DataDefinition.t) :=
  let 'DataDefinition.mk i ts n c tx dt cl r l _ cd rk := d in
  DataDefinition.mk i ts n c tx dt cl r l v cd rk.
Definition set_categorical_descriptors (v : list string) (d : DataDefinition.t) :=
  let 'DataDefinition.mk i ts n c tx dt cl r l nd _ rk := d in
  DataDefinition.mk i ts n c tx dt cl r l nd v rk.

(** The inference log: the labels of the columns handed to
    [infer_column_type], in call order.  It is the only state the
    constructor threads. *)
Definition inference_log : Type := list string.

Definition traced_infer (column : string) (series : Series.t) : M inference_log ColumnType :=
  fun log => (log ++ [column], infer_column_type series).

(** The [for column in data.columns] loop of [_generate_data_definition]. *)
Fixpoint generate_loop (items : list (string * Series.t)) (reserved_fields : list string)
    (acc : buckets) : M inference_log buckets :=
  match items with
  | [] => M_ret acc
  | (column, series) :: items' =>
      if bool_decide (column ∈ reserved_fields) then
        generate_loop items' reserved_fields acc
      else
        do column_type <- traced_infer column series;
        let acc :=
          if bool_decide (column_type = Numerical)
          then mk_buckets (numerical acc ++ [column]) (categorical acc) (text acc) (datetime acc)
          else acc in
        let acc :=
          if bool_decide (column_type = Categorical)
          then mk_buckets (numerical acc) (categorical acc ++ [column]) (text acc) (datetime acc)
          else acc in
        let acc :=
          if bool_decide (column_type = Datetime)
          then mk_buckets (numerical acc) (categorical acc) (text acc) (datetime acc ++ [column])
          else acc in
        let acc :=
          if bool_decide (column_type = Text)
          then mk_buckets (numerical acc) (categorical acc) (text acc ++ [column]) (datetime acc)
          else acc in
        generate_loop items' reserved_fields acc
  end.

Definition _generate_data_definition (data : DataFrame.t) (reserved_fields : list string)
  : M inference_log DataDefinition.t :=
  do found <- generate_loop (DataFrame.items data) reserved_fields (mk_buckets [] [] [] []);
  M_ret (DataDefinition.__init__
           None
           (if (length (datetime found) =? 1)%nat then datetime found !! 0%nat else None)
           (Some (numerical found))
           (Some (categorical found))
           (Some (text found))
           (Some (if negb (length (datetime found) =? 1)%nat then datetime found else []))
           None None None None None None).

(** The guard of the constructor on a given schema: one of its four role
    sets is [None]. *)
Definition has_unset_role (d : DataDefinition.t) : bool :=
  (if DataDefinition.datetime_columns d is None then true else false)
  || (if DataDefinition.categorical_columns d is None then true else false)
  || (if DataDefinition.text_columns d is None then true else false)
  || (if DataDefinition.numerical_columns d is None then true else false).

(** [reserved_fields], filled in the order of the source. *)
Definition reserved_fields_of (data_definition : option DataDefinition.t) : list string :=
  match data_definition with
  | None => []
  | Some d =>
      (if DataDefinition.timestamp d is Some ts then [ts] else [])
      ++ (if DataDefinition.id_column d is Some i then [i] else [])
      ++ default [] (DataDefinition.numerical_columns d)
      ++ default [] (DataDefinition.categorical_columns d)
      ++ default [] (DataDefinition.datetime_columns d)
      ++ default [] (DataDefinition.text_columns d)
      ++ DataDefinition.numerical_descriptors d
      ++ DataDefinition.categorical_descriptors d
  end.

(** The merge of the user's schema (a deep copy of it) with the generated
    one, assignment by assignment. *)
Definition merge (data_definition generated_data_definition : DataDefinition.t)
  : DataDefinition.t :=
  let d := data_definition in
  let g := generated_data_definition in
  let d :=
    if DataDefinition.datetime_columns d is None then
      match DataDefinition.timestamp d, DataDefinition.timestamp g with
      | Some _, Some generated_timestamp =>
          set_datetime_columns (Some [generated_timestamp]) d
      | _, _ => set_datetime_columns (DataDefinition.datetime_columns g) d
      end
    else d in
  let d :=
    if DataDefinition.numerical_columns d is None
    then set_numerical_columns (DataDefinition.numerical_columns g) d else d in
  let d :=
    if DataDefinition.categorical_columns d is None
    then set_categorical_columns (DataDefinition.categorical_columns g) d else d in
  let d :=
    if DataDefinition.text_columns d is None
    then set_text_columns (DataDefinition.text_columns g) d else d in
  match DataDefinition.timestamp d, DataDefinition.timestamp g with
  | None, Some generated_timestamp => set_timestamp (Some generated_timestamp) d
  | _, _ => d
  end.

(** The schema part of the constructor: [copy.deepcopy] yields an equal
    value. *)
Definition resolve_data_definition (data : DataFrame.t)
    (data_definition : option DataDefinition.t) : M inference_log DataDefinition.t :=
  match data_definition with
  | None =>
      do generated_data_definition <-
        _generate_data_definition data (reserved_fields_of None);
      M_ret generated_data_definition
  | Some d =>
      if has_unset_role d then
        do generated_data_definition <-
          _generate_data_definition data (reserved_fields_of (Some d));
        M_ret (merge d generated_data_definition)
      else M_ret d
  end.

Section WithPandas.
Context `{SeriesReductions}.

(** [PandasDataset.__init__]. *)
Definition __init__ (data : DataFrame.t) (data_definition : option DataDefinition.t)
  : M inference_log t :=
  do definition <- resolve_data_definition data data_definition;
  let (rows, columns) := DataFrame.shape data in
  let column_stats :=
    foldl (fun (stats : gmap string ColumnStats.t) (item : string * Series.t) =>
             let (column, series) := item in
             <[column := _collect_stats (DataDefinition.get_column_type definition column) series]>
               stats)
          ∅ (DataFrame.items data) in
  M_ret (mk data definition (DatasetStats.mk rows columns column_stats)).

Definition stats (self : t) : DatasetStats.t := _dataset_stats self.

Definition as_dataframe (self : t) : DataFrame.t := _data self.

(** [PandasDataset.add_column]: its statements in order, each an in-place
    update of [self]. *)
Definition add_column (key : string) (data : DatasetColumn.t) : M t unit :=
  M_modify (fun self =>
    let st := _dataset_stats self in
    mk (_data self) (_data_definition self)
       (DatasetStats.mk (DatasetStats.row_count st)
                        (DatasetStats.column_count st + 1)%Z
                        (DatasetStats.column_stats st))) ;;
  M_modify (fun self =>
    let st := _dataset_stats self in
    mk (_data self) (_data_definition self)
       (DatasetStats.mk (DatasetStats.row_count st)
                        (DatasetStats.column_count st)
                        (<[key := _collect_stats (DatasetColumn.type data) (DatasetColumn.data data)]>
                           (DatasetStats.column_stats st)))) ;;
  M_modify (fun self =>
    mk (DataFrame.setitem (_data self) key (DatasetColumn.data data))
       (_data_definition self) (_dataset_stats self)) ;;
  (if bool_decide (DatasetColumn.type data = Numerical) then
     M_modify (fun self =>
       let d := _data_definition self in
       mk (_data self)
          (set_numerical_descriptors (DataDefinition.numerical_descriptors d ++ [key]) d)
          (_dataset_stats self))
   else M_ret tt) ;;
  (if bool_decide (DatasetColumn.type data = Categorical) then
     M_modify (fun self =>
       let d := _data_definition self in
       mk (_data self)
          (set_categorical_descriptors (DataDefinition.categorical_descriptors d ++ [key]) d)
          (_dataset_stats self))
   else M_ret tt).

(** [PandasDataset.column]. *)
Definition column (self : t) (column_name : string) : result DatasetColumn.t :=
  let column_type := DataDefinition.get_column_type (_data_definition self) column_name in
  series ← DataFrame.getitem (_data self) column_name;
  Return (DatasetColumn.mk column_type series).

(** [PandasDataset.subdataset]: a new dataset built by the constructor from
    the rows where [self._data[column_name] == label], with the schema of
    [self]. *)
Definition subdataset `{CellComparison} (self : t) (column_name : string) (label : scalar)
  : M inference_log t :=
  do series <- M_lift (DataFrame.getitem (_data self) column_name);
  let mask := List.map (fun v => cell_eq v label) (Series.values series) in
  __init__ (DataFrame.select mask (_data self)) (Some (_data_definition self)).

End WithPandas.

End PandasDataset.

Module Descriptor.

(** A descriptor: its alias and its [generate_data] method, which reads the
    dataset and may raise. *)
Record t `{OptionsBag} : Type := mk {
  alias : string;
  generate_data : PandasDataset.t -> Options -> result generated
}.

End Descriptor.

Section Pipeline.
Context `{SeriesReductions} `{OptionsBag}.

(** The body of the [for col, value in new_columns.items()] loop of
    [add_descriptor]: the name is resolved against the columns the table has
    at that moment. *)
Definition add_generated_column (item : string * DatasetColumn.t) : M PandasDataset.t unit :=
  let (col, value) := item in
  do self <- M_get;
  match _determine_desccriptor_column_name
          col (DataFrame.columns (PandasDataset._data self)) with
  | Some key => PandasDataset.add_column key value
  | None => M_lift (Raise OutOfFuel)
  end.

(** The mapping that [add_descriptor] iterates over: a single column is
    wrapped under the alias of the descriptor. *)
Definition proposed_columns (descriptor : Descriptor.t) (new_columns : generated)
  : list (string * DatasetColumn.t) :=
  match new_columns with
  | OneColumn column => [(Descriptor.alias descriptor, column)]
  | ManyColumns columns => columns
  end.

(** [PandasDataset.add_descriptor]. *)
Definition add_descriptor (descriptor : Descriptor.t) (options : AnyOptions)
  : M PandasDataset.t unit :=
  do self <- M_get;
  do new_columns <-
    M_lift (Descriptor.generate_data descriptor self (Options_from_any_options options));
  M_for (proposed_columns descriptor new_columns) add_generated_column.

(** [Dataset.add_descriptors]. *)
Definition add_descriptors (descriptors : list Descriptor.t) (options : AnyOptions)
  : M PandasDataset.t unit :=
  M_for descriptors (fun descriptor => add_descriptor descriptor options).


End Pipeline.

(** ** Vocabulary of the statements about schema resolution *)

(** The columns left to inference: those whose label is not reserved. *)
Definition unreserved (reserved_fields : list string) (items : list (string * Series.t))
  : list (string * Series.t) :=
  List.filter (fun item => negb (bool_decide (fst item ∈ reserved_fields))) items.

(** The labels of the columns to which [inferred] gives the type [ty]. *)
Definition candidates (inferred : Series.t -> ColumnType) (ty : ColumnType)
    (items : list (string * Series.t)) : list string :=
  List.map fst (List.filter (fun item => bool_decide (inferred (snd item) = ty)) items).


(** A resolved schema: none of its four role sets is left unset. *)
Definition roles_set (d : DataDefinition.t) : Prop :=
  is_Some (DataDefinition.numerical_columns d)
  /\ is_Some (DataDefinition.categorical_columns d)
  /\ is_Some (DataDefinition.text_columns d)
  /\ is_Some (DataDefinition.datetime_columns d).

(** What inference gives for a column, with [Unknown] standing in where it
    raises. *)
Definition inferred_type (series : Series.t) : ColumnType :=
  match infer_column_type series with
  | Return ty => ty
  | Raise _ => Unknown
  end.

(** ** Vocabulary of the statements about a dataset and its statistics *)

(** The statistics agree with the table: the labels of the table are
    pairwise distinct, the column count is their number, and the columns
    with a statistics entry are the columns of the table. *)
Definition stats_match_table (self : PandasDataset.t) : Prop :=
  NoDup (DataFrame.columns (PandasDataset._data self))
  /\ DatasetStats.column_count (PandasDataset._dataset_stats self)
     = Z.of_nat (length (DataFrame.columns (PandasDataset._data self)))
  /\ (forall name,
        is_Some (DatasetStats.column_stats (PandasDataset._dataset_stats self) !! name)
        <-> name ∈ DataFrame.columns (PandasDataset._data self)).


(** ** Vocabulary of the statements about descriptor names *)

(** The names the loop of [_determine_desccriptor_column_name] tries, in
    order: the alias itself, then the alias with the suffixes [_1], [_2], ... *)
Definition suffixed (alias : string) (n : nat) : string :=
  match n with
  | O => alias
  | S _ => alias +:+ "_" +:+ pretty n
  end.

(** ** Stand-ins used to run the definitions on concrete tables *)

(** Reductions that ignore the data: enough to evaluate the pipeline, whose
    control flow never looks at them. *)
Definition constant_reductions : SeriesReductions :=
  {| Series_max := fun _ => 0%float;
     Series_min := fun _ => 0%float;
     Series_mean := fun _ => 0%float;
     Series_std := fun _ => 0%float;
     Series_quantile := fun _ _ => 0%float |}.

Definition unit_options : OptionsBag :=
  {| AnyOptions := unit; Options := unit; Options_from_any_options := fun o => o |}.

(** A descriptor with alias ["score"] that always yields one numerical
    column. *)
Definition score_descriptor : @Descriptor.t unit_options :=
  @Descriptor.mk unit_options "score"
    (fun _ _ => Return (OneColumn (DatasetColumn.mk Numerical
                                     (Series.mk "float64" [PyFloat 1; PyFloat 2])))).

(** A table of two rows with a single column of strings named [label], and
    the dataset that the constructor builds from it without a schema (see
    [one_column_dataset_constructed]). *)
Definition one_column_table (label : string) : DataFrame.t :=
  DataFrame.mk 2 [(label, Series.mk "object" [PyStr "a"; PyStr "b"])].

Definition one_column_dataset (label : string) : PandasDataset.t :=
  PandasDataset.mk
    (one_column_table label)
    (DataDefinition.__init__ None None (Some []) (Some []) (Some [label]) (Some [])
       None None None None None None)
    (DatasetStats.mk 2 1
       {[ label := ColumnStats.mk (GeneralColumnStats.mk (StatCountValue.mk 0 0%float))
                     None None ]}).

(** A table with an integer column of two values, a float column and one
    datetime column. *)
Definition three_column_table : DataFrame.t :=
  DataFrame.mk 2
    [("kind", Series.mk "int64" [PyInt 1; PyInt 2]);
     ("price", Series.mk "float64" [PyFloat 1; PyFloat 2]);
     ("day", Series.mk "datetime64[ns]" [PyDatetime 1; PyDatetime 2])].

(** A descriptor that keeps the [generate_data] of the base class, which
    raises [NotImplementedError]. *)
Definition abstract_descriptor : @Descriptor.t unit_options :=
  @Descriptor.mk unit_options "abstract" (fun _ _ => Raise NotImplementedError).

(** Cells compared by value, a missing cell being equal to nothing. *)
Definition by_value : CellComparison :=
  {| cell_eq := fun v label => negb (isna v) && scalar_eqb v label |}.

(** A table of five rows with a column of segments, three of them ["x"]. *)
Definition segment_table : DataFrame.t :=
  DataFrame.mk 5
    [("segment", Series.mk "object" [PyStr "x"; PyStr "y"; PyStr "x"; PyStr "x"; PyStr "z"]);
     ("amount", Series.mk "float64" [PyFloat 1; PyFloat 2; PyFloat 3; PyFloat 4; PyFloat 5])].

(** * Properties *)

(** ** Task definitions *)

(** C8. A [BinaryClassification] built with every field omitted is the
    conventional default (target ["target"], probabilities in ["prediction"],
    positive label [1]); a target with neither prediction column, and a
    prediction column without a target, are both refused with the
    configuration error. *)
Theorem BinaryClassification_defaults_or_error :
  (forall name_,
      BinaryClassification.__init__ name_ None None None None None
      = Return (BinaryClassification.mk (default "default" name_) "target" None
                  (Some "prediction") (PyInt 1) None))
  /\ (forall name_ target pos_label labels,
         BinaryClassification.__init__ name_ (Some target) None None pos_label labels
         = Raise (ValueError BinaryClassification.invalid_configuration))
  /\ (forall name_ column other pos_label labels,
         BinaryClassification.__init__ name_ None (Some column) other pos_label labels
         = Raise (ValueError BinaryClassification.invalid_configuration)
         /\ BinaryClassification.__init__ name_ None other (Some column) pos_label labels
            = Raise (ValueError BinaryClassification.invalid_configuration)).
Proof.
  split; [reflexivity | split].
  - intros name_ target pos_label labels.
    unfold BinaryClassification.__init__; simpl.
    reflexivity.
  - intros name_ column other pos_label labels.
    unfold BinaryClassification.__init__.
    split; destruct other; reflexivity.
Qed.

(** The spec's two examples: no argument at all, and only [target="t"]. *)
Example BinaryClassification_examples :
  BinaryClassification.__init__ None None None None None None
  = Return (BinaryClassification.mk "default" "target" None (Some "prediction") (PyInt 1) None)
  /\ BinaryClassification.__init__ None (Some "t") None None None None
     = Raise (ValueError BinaryClassification.invalid_configuration).
Proof. split; reflexivity. Qed.

(** ** Lookups of named task definitions *)

Section LookupByName.
Context {A : Type} (name : A -> string) (kind : string).

Lemma filter_two_positions (p : A -> bool) (l : list A) (i j : nat) (x y : A) :
  i <> j -> l !! i = Some x -> l !! j = Some y -> p x = true -> p y = true ->
  (2 <= length (List.filter p l))%nat.
Proof.
  revert i j.
  induction l as [|a l IH]; intros i j Hij Hi Hj Hx Hy.
  - rewrite lookup_nil in Hi. discriminate.
  - destruct i as [|i], j as [|j]; simpl in *.
    + congruence.
    + injection Hi as ->. rewrite Hx. simpl.
      assert (In y (List.filter p l)) as Hin.
      { apply filter_In. split; [|exact Hy]. apply list_elem_of_In.
        apply list_elem_of_lookup. eauto. }
      destruct (List.filter p l); [destruct Hin | simpl; lia].
    + injection Hj as ->. rewrite Hy. simpl.
      assert (In x (List.filter p l)) as Hin.
      { apply filter_In. split; [|exact Hx]. apply list_elem_of_In.
        apply list_elem_of_lookup. eauto. }
      destruct (List.filter p l); [destruct Hin | simpl; lia].
    + assert (2 <= length (List.filter p l))%nat by (apply (IH i j); auto).
      destruct (p a); simpl; lia.
Qed.

Lemma filter_no_match (p : A -> bool) (l : list A) :
  (forall x, x ∈ l -> p x = false) -> List.filter p l = [].
Proof.
  induction l as [|a l IH]; intros Hall; [reflexivity|].
  simpl. rewrite (Hall a) by constructor.
  apply IH. intros x Hx. apply Hall. by constructor.
Qed.

(** Two entries with the looked-up name, at different positions: the lookup
    raises. *)
Lemma lookup_by_name_duplicate (items : list A) (id : string) (i j : nat) (x y : A) :
  i <> j -> items !! i = Some x -> items !! j = Some y ->
  name x = id -> name y = id ->
  DataDefinition.lookup_by_name name kind (Some items) id
  = Raise (ValueError (DataDefinition.more_than_one kind id)).
Proof.
  intros Hij Hi Hj Hx Hy.
  unfold DataDefinition.lookup_by_name. simpl.
  pose proof (filter_two_positions (fun a => String.eqb (name a) id) items i j x y Hij Hi Hj) as Hlen.
  rewrite !String.eqb_eq in Hlen. specialize (Hlen Hx Hy).
  destruct (length _) as [|[|n]] eqn:E; [lia | lia | reflexivity].
Qed.

(** No entry with the looked-up name, or no sequence at all: the lookup
    returns [None]. *)
Lemma lookup_by_name_absent (items : option (list A)) (id : string) :
  (forall x, x ∈ default [] items -> name x <> id) ->
  DataDefinition.lookup_by_name name kind items id = Return None.
Proof.
  intros Hnone. unfold DataDefinition.lookup_by_name.
  rewrite filter_no_match; [reflexivity|].
  intros x Hx. apply String.eqb_neq. by apply Hnone.
Qed.

End LookupByName.

(** C9. The constructor stores the three sequences of task definitions as
    given, duplicated names included; the uniqueness of a name is only
    checked by the lookups, each of which raises when two entries of its
    sequence carry the looked-up name. *)
Theorem duplicate_names_raise_at_lookup :
  forall id_column timestamp numerical_columns categorical_columns text_columns
         datetime_columns classification regression llm numerical_descriptors
         categorical_descriptors ranking,
    let d := DataDefinition.__init__ id_column timestamp numerical_columns
               categorical_columns text_columns datetime_columns classification
               regression llm numerical_descriptors categorical_descriptors ranking in
    (DataDefinition.classification d = classification
     /\ DataDefinition.regression d = regression
     /\ DataDefinition.ranking d = ranking)
    /\ (forall items id i j x y,
           classification = Some items -> i <> j ->
           items !! i = Some x -> items !! j = Some y ->
           Classification_name x = id -> Classification_name y = id ->
           DataDefinition.get_classification d id
           = Raise (ValueError (DataDefinition.more_than_one "classification" id)))
    /\ (forall items id i j x y,
           regression = Some items -> i <> j ->
           items !! i = Some x -> items !! j = Some y ->
           Regression.name x = id -> Regression.name y = id ->
           DataDefinition.get_regression d id
           = Raise (ValueError (DataDefinition.more_than_one "regression" id)))
    /\ (forall items id i j x y,
           ranking = Some items -> i <> j ->
           items !! i = Some x -> items !! j = Some y ->
           Recsys.name x = id -> Recsys.name y = id ->
           DataDefinition.get_ranking d id
           = Raise (ValueError (DataDefinition.more_than_one "ranking" id))).
Proof.
  intros. subst d. split; [by repeat split|].
  split; [|split]; intros items id i j x y -> Hij Hi Hj Hx Hy.
  - unfold DataDefinition.get_classification. simpl.
    by eapply lookup_by_name_duplicate.
  - unfold DataDefinition.get_regression. simpl.
    by eapply lookup_by_name_duplicate.
  - unfold DataDefinition.get_ranking. simpl.
    by eapply lookup_by_name_duplicate.
Qed.

(** A schema whose three sequences each hold the name ["default"] twice. *)
Lemma duplicate_names_raise_at_lookup_witness :
  let binary := Binary (BinaryClassification.mk "default" "target" None (Some "prediction")
                          (PyInt 1) None) in
  let multi := Multiclass (MulticlassClassification.mk "default" "target" (Some "prediction")
                             None None) in
  let regression := Regression.mk "default" "target" "prediction" in
  let recsys := Recsys.mk "default" "user_id" "target" "prediction" in
  let d := DataDefinition.__init__ None None None None None None
             (Some [binary; multi]) (Some [regression; regression]) None None None
             (Some [recsys; recsys]) in
  DataDefinition.classification d = Some [binary; multi]
  /\ DataDefinition.get_classification d "default"
     = Raise (ValueError (DataDefinition.more_than_one "classification" "default"))
  /\ DataDefinition.get_regression d "default"
     = Raise (ValueError (DataDefinition.more_than_one "regression" "default"))
  /\ DataDefinition.get_ranking d "default"
     = Raise (ValueError (DataDefinition.more_than_one "ranking" "default")).
Proof.
  intros binary multi regression recsys d.
  destruct (duplicate_names_raise_at_lookup None None None None None None
              (Some [binary; multi]) (Some [regression; regression]) None None None
              (Some [recsys; recsys])) as ((Hc & _ & _) & Hcls & Hreg & Hrank).
  split; [exact Hc|].
  split; [|split].
  - apply (Hcls [binary; multi] "default" 0%nat 1%nat binary multi);
      [reflexivity | lia | reflexivity | reflexivity | reflexivity | reflexivity].
  - apply (Hreg [regression; regression] "default" 0%nat 1%nat regression regression);
      [reflexivity | lia | reflexivity | reflexivity | reflexivity | reflexivity].
  - apply (Hrank [recsys; recsys] "default" 0%nat 1%nat recsys recsys);
      [reflexivity | lia | reflexivity | reflexivity | reflexivity | reflexivity].
Defined.

(** C10. A lookup whose name matches no entry of its sequence returns [None]
    without raising; so does every lookup in a sequence left unset. *)
Theorem lookup_without_match_returns_None :
  forall (d : DataDefinition.t) (id : string),
    ((forall x, x ∈ default [] (DataDefinition.classification d) -> Classification_name x <> id) ->
     DataDefinition.get_classification d id = Return None)
    /\ ((forall x, x ∈ default [] (DataDefinition.regression d) -> Regression.name x <> id) ->
        DataDefinition.get_regression d id = Return None)
    /\ ((forall x, x ∈ default [] (DataDefinition.ranking d) -> Recsys.name x <> id) ->
        DataDefinition.get_ranking d id = Return None)
    /\ (DataDefinition.classification d = None ->
        DataDefinition.get_classification d id = Return None)
    /\ (DataDefinition.regression d = None ->
        DataDefinition.get_regression d id = Return None)
    /\ (DataDefinition.ranking d = None ->
        DataDefinition.get_ranking d id = Return None).
Proof.
  intros d id.
  unfold DataDefinition.get_classification, DataDefinition.get_regression,
    DataDefinition.get_ranking.
  repeat split.
  - apply lookup_by_name_absent.
  - apply lookup_by_name_absent.
  - apply lookup_by_name_absent.
  - intros ->. reflexivity.
  - intros ->. reflexivity.
  - intros ->. reflexivity.
Qed.

(** A schema with one regression named ["default"], no classification and an
    empty ranking sequence, looked up under ["other"]. *)
Lemma lookup_without_match_returns_None_witness :
  let d := DataDefinition.__init__ None None None None None None
             None (Some [Regression.mk "default" "target" "prediction"]) None None None
             (Some []) in
  DataDefinition.get_classification d "other" = Return None
  /\ DataDefinition.get_regression d "other" = Return None
  /\ DataDefinition.get_ranking d "other" = Return None.
Proof.
  intros d.
  destruct (lookup_without_match_returns_None d "other")
    as (_ & Hreg & Hrank & Hcls & _ & _).
  split; [|split].
  - apply Hcls. reflexivity.
  - apply Hreg. intros x Hx.
    apply list_elem_of_singleton in Hx. subst x. discriminate.
  - apply Hrank. intros x Hx. inversion Hx.
Defined.

(** ** The most common label *)

(** A dataclass instance has no [<]: comparing two [StatCountValue] raises. *)
Lemma StatCountValue_lt_raises (a b : StatCountValue.t) :
  py_lt a b = Raise (TypeError "'<' not supported between instances").
Proof. reflexivity. Qed.




(** C1. On the label map [A:3, B:3] (A first) the derived most common label
    is not [A]: the property raises [TypeError] at the first comparison. *)
Theorem most_common_tie_raises :
  CategoricalColumnStats.most_common
    (CategoricalColumnStats.mk 2
       [(PyStr "A", LabelStats.mk (StatCountValue.mk 3 0.5%float));
        (PyStr "B", LabelStats.mk (StatCountValue.mk 3 0.5%float))])
  = Raise (TypeError "'<' not supported between instances").
Proof. reflexivity. Qed.

(** The same map, as [_collect_categorical_stats] builds it from the column
    [A, B, A, B, A, B]. *)
Example most_common_of_collected_stats_raises :
  let column := Series.mk "object"
                  [PyStr "A"; PyStr "B"; PyStr "A"; PyStr "B"; PyStr "A"; PyStr "B"] in
  CategoricalColumnStats.label_stats (_collect_categorical_stats column)
  = [(PyStr "A", LabelStats.mk (StatCountValue.mk 3 0.5%float));
     (PyStr "B", LabelStats.mk (StatCountValue.mk 3 0.5%float))]
  /\ CategoricalColumnStats.most_common (_collect_categorical_stats column)
     = Raise (TypeError "'<' not supported between instances").
Proof. split; reflexivity. Qed.

(** ** Column type inference on a column without values *)

Lemma dropna_all_missing (column_data : Series.t) :
  Forall (fun v => isna v = true) (Series.values column_data) ->
  Series.values (Series.dropna column_data) = [].
Proof.
  destruct column_data as [dtype vs]. simpl.
  induction 1 as [|v vs Hv _ IH]; [reflexivity|].
  simpl. rewrite Hv. exact IH.
Qed.

Lemma iloc_empty (s : Series.t) (i : Z) :
  Series.values s = [] ->
  Series.iloc s i = Raise (IndexError "single positional indexer is out-of-bounds").
Proof.
  intros Hnil. unfold Series.iloc. rewrite Hnil. cbv zeta.
  destruct (_ && _); [|reflexivity].
  rewrite lookup_nil. reflexivity.
Qed.

(** C5. On an object column whose values are all missing, inference fails
    with the [IndexError] that [iloc[0]] raises on the empty result of
    [dropna()]: no check for emptiness precedes the positional access. *)
Theorem infer_object_all_missing_raises :
  forall column_data : Series.t,
    Series.dtype_name column_data = "object" ->
    Forall (fun v => isna v = true) (Series.values column_data) ->
    Series.values (Series.dropna column_data) = []
    /\ Series.iloc (Series.dropna column_data) 0
       = Raise (IndexError "single positional indexer is out-of-bounds")
    /\ infer_column_type column_data
       = Raise (IndexError "single positional indexer is out-of-bounds").
Proof.
  intros column_data Hdtype Hmissing.
  pose proof (dropna_all_missing column_data Hmissing) as Hnil.
  pose proof (iloc_empty (Series.dropna column_data) 0 Hnil) as Hfirst.
  split; [exact Hnil|]. split; [exact Hfirst|].
  unfold infer_column_type. rewrite Hdtype.
  replace (String.prefix "float" "object") with false by reflexivity.
  replace (String.prefix "int" "object") with false by reflexivity.
  replace (bool_decide ("object" ∈ ["string"])) with false by reflexivity.
  replace (String.eqb "object" "object") with true by reflexivity.
  cbv zeta. rewrite Hfirst. reflexivity.
Qed.

(** An object column holding only [None] and a float [nan]. *)
Lemma infer_object_all_missing_raises_witness :
  let column_data := Series.mk "object" [PyNone; PyFloat nan; PyNone] in
  Series.dtype_name column_data = "object"
  /\ Forall (fun v => isna v = true) (Series.values column_data)
  /\ Series.values (Series.dropna column_data) = []
  /\ Series.iloc (Series.dropna column_data) 0
     = Raise (IndexError "single positional indexer is out-of-bounds")
  /\ infer_column_type column_data
     = Raise (IndexError "single positional indexer is out-of-bounds").
Proof.
  intros column_data.
  assert (Series.dtype_name column_data = "object") as Hdtype by reflexivity.
  assert (Forall (fun v => isna v = true) (Series.values column_data)) as Hmissing
    by (repeat constructor).
  split; [exact Hdtype|]. split; [exact Hmissing|].
  exact (infer_object_all_missing_raises column_data Hdtype Hmissing).
Defined.

(** On the all-missing object column [None, None] nothing is left after
    [dropna()], position 0 is out of range, and the failure of inference is
    the error of that positional access. *)
Lemma infer_object_all_missing_counterexample :
  let column_data := Series.mk "object" [PyNone; PyNone] in
  Series.values (Series.dropna column_data) = []
  /\ Series.iloc (Series.dropna column_data) 0
     = Raise (IndexError "single positional indexer is out-of-bounds")
  /\ infer_column_type column_data
     = Raise (IndexError "single positional indexer is out-of-bounds").
Proof. repeat split. Qed.

(** ** The infinite-value statistic *)







Section InfiniteStatistic.
Context `{SeriesReductions}.


End InfiniteStatistic.



(** ** Appending a column *)

Section AddColumn.
Context `{SeriesReductions}.


End AddColumn.


(** ** Schema resolution *)

Section Resolution.
Context `{SeriesReductions}.


End Resolution.


Section GenerateLoop.
Variables (reserved_fields : list string) (inferred : Series.t -> ColumnType).

(** The loop of [_generate_data_definition] infers exactly the unreserved
    columns, in order, and appends each label to the bucket of its type. *)
Lemma generate_loop_spec (items : list (string * Series.t)) :
  forall (acc : buckets) (log : PandasDataset.inference_log),
    (forall item, item ∈ unreserved reserved_fields items ->
                  infer_column_type (snd item) = Return (inferred (snd item))) ->
    PandasDataset.generate_loop items reserved_fields acc log
    = (log ++ List.map fst (unreserved reserved_fields items),
       Return (mk_buckets
                 (numerical acc ++ candidates inferred Numerical (unreserved reserved_fields items))
                 (categorical acc ++ candidates inferred Categorical (unreserved reserved_fields items))
                 (text acc ++ candidates inferred Text (unreserved reserved_fields items))
                 (datetime acc ++ candidates inferred Datetime (unreserved reserved_fields items)))).
Proof.
  induction items as [|[column series] items IH]; intros acc log Hinfer.
  - destruct acc. unfold candidates. simpl. by rewrite !app_nil_r.
  - simpl. unfold unreserved in *. simpl in *.
    destruct (bool_decide (column ∈ reserved_fields)); simpl in *.
    + by apply IH.
    + unfold M_bind, PandasDataset.traced_infer.
      assert (infer_column_type series = Return (inferred series)) as ->
        by (apply (Hinfer (column, series)); constructor).
      rewrite IH by (intros item Hitem; apply Hinfer; by constructor).
      unfold candidates. simpl.
      destruct (inferred series); simpl; rewrite <- !app_assoc; reflexivity.
Qed.

(** When the inference of an unreserved column raises, so does the loop. *)
Lemma generate_loop_raises (items : list (string * Series.t)) :
  forall (acc : buckets) (log : PandasDataset.inference_log),
    (exists item, item ∈ unreserved reserved_fields items
                  /\ exists e, infer_column_type (snd item) = Raise e) ->
    exists log' e, PandasDataset.generate_loop items reserved_fields acc log = (log', Raise e).
Proof.
  induction items as [|[column series] items IH]; intros acc log (item & Hitem & e & He).
  - inversion Hitem.
  - simpl. unfold unreserved in *. simpl in *.
    destruct (bool_decide (column ∈ reserved_fields)); simpl in *.
    + apply IH. eauto.
    + unfold M_bind, PandasDataset.traced_infer.
      destruct (infer_column_type series) as [ty|e'] eqn:Hseries; [|eauto].
      apply IH. apply elem_of_cons in Hitem as [->|Hitem]; [|eauto].
      simpl in He. congruence.
Qed.

End GenerateLoop.

Section GenerateDataDefinition.
Variables (reserved_fields : list string) (inferred : Series.t -> ColumnType).

(** [_generate_data_definition] on a table whose unreserved columns all have
    an inferred type: a single datetime candidate becomes the timestamp and
    leaves the datetime set empty; any other number of them stays in the
    datetime set. *)
Lemma generate_data_definition_spec (data : DataFrame.t) (log : PandasDataset.inference_log) :
  let free := unreserved reserved_fields (DataFrame.items data) in
  (forall item, item ∈ free -> infer_column_type (snd item) = Return (inferred (snd item))) ->
  PandasDataset._generate_data_definition data reserved_fields log
  = (log ++ List.map fst free,
     Return (DataDefinition.mk None
               (match candidates inferred Datetime free with [t] => Some t | _ => None end)
               (Some (candidates inferred Numerical free))
               (Some (candidates inferred Categorical free))
               (Some (candidates inferred Text free))
               (Some (match candidates inferred Datetime free with [_] => [] | l => l end))
               None None None [] [] None)).
Proof.
  intros free Hinfer. subst free.
  unfold PandasDataset._generate_data_definition, M_bind.
  rewrite (generate_loop_spec reserved_fields inferred) by exact Hinfer.
  simpl.
  destruct (candidates inferred Datetime _) as [|t [|t' l]]; reflexivity.
Qed.

End GenerateDataDefinition.

Lemma has_unset_role_true (d : DataDefinition.t) :
  DataDefinition.numerical_columns d = None
  \/ DataDefinition.categorical_columns d = None
  \/ DataDefinition.text_columns d = None
  \/ DataDefinition.datetime_columns d = None ->
  PandasDataset.has_unset_role d = true.
Proof.
  unfold PandasDataset.has_unset_role.
  intros [Hnone|[Hnone|[Hnone|Hnone]]]; rewrite Hnone;
    repeat (match goal with |- context [match ?o with Some _ => _ | None => _ end] =>
              destruct o end); reflexivity.
Qed.




(** ** Names of descriptor columns *)

Lemma string_app_empty_r (s : string) : s +:+ "" = s.
Proof.
  induction s as [|a s IH]; [reflexivity|].
  change (String a (s +:+ "") = String a s). by rewrite IH.
Qed.

Lemma suffixed_inj (alias : string) : Inj eq eq (suffixed alias).
Proof.
  intros [|n] [|m] Heq; simpl in Heq.
  - reflexivity.
  - rewrite <- (string_app_empty_r alias) in Heq at 1.
    apply String.app_inj in Heq. discriminate.
  - symmetry in Heq. rewrite <- (string_app_empty_r alias) in Heq at 1.
    apply String.app_inj in Heq. discriminate.
  - apply String.app_inj in Heq. apply (String.app_inj "_") in Heq.
    by apply pretty_nat_inj in Heq.
Qed.

(** The loop stops at the first name that is not a column, provided the fuel
    reaches that far. *)
Lemma determine_loop_spec (alias : string) (columns : list string) (fuel : nat) :
  forall n k : nat,
    n <= k <= n + fuel ->
    suffixed alias k ∉ columns ->
    (forall m, n <= m < k -> suffixed alias m ∈ columns) ->
    determine_loop fuel alias columns (S n) (suffixed alias n) = Some (suffixed alias k).
Proof.
  induction fuel as [|fuel IH]; intros n k Hrange Hfree Htaken.
  - assert (k = n) as -> by lia.
    simpl. by rewrite bool_decide_eq_false_2.
  - destruct (decide (k = n)) as [->|Hne].
    + simpl. by rewrite bool_decide_eq_false_2.
    + simpl. rewrite bool_decide_eq_true_2 by (apply Htaken; lia).
      apply (IH (S n) k); [lia | exact Hfree | intros m Hm; apply Htaken; lia].
Qed.

(** Among the first [length columns + 1] names one is not a column. *)
Lemma some_suffixed_name_is_free (alias : string) (columns : list string) :
  exists k, k <= length columns /\ suffixed alias k ∉ columns.
Proof.
  destruct (decide (Forall (fun k => suffixed alias k ∈ columns) (seq 0 (S (length columns)))))
    as [Hall|Hsome].
  - exfalso.
    assert (suffixed alias <$> seq 0 (S (length columns)) ⊆+ columns) as Hsub.
    { apply NoDup_submseteq.
      - apply NoDup_fmap_2; [apply suffixed_inj | apply NoDup_seq].
      - intros x Hx. apply list_elem_of_fmap in Hx as (k & -> & Hk).
        rewrite Forall_forall in Hall. by apply Hall. }
    apply submseteq_length in Hsub.
    rewrite length_fmap, length_seq in Hsub. lia.
  - apply not_Forall_Exists in Hsome; [|intros k; apply _].
    apply Exists_exists in Hsome as (k & Hk & Hfree).
    apply elem_of_seq in Hk. exists k. split; [lia | exact Hfree].
Qed.

(** The least such name. *)
Lemma first_free_suffixed_name (alias : string) (columns : list string) :
  exists k, k <= length columns
            /\ (suffixed alias k ∉ columns)
            /\ (forall m, m < k -> suffixed alias m ∈ columns).
Proof.
  destruct (some_suffixed_name_is_free alias columns) as (k & Hk & Hfree).
  clear Hk. revert Hfree.
  induction k as [k IH] using lt_wf_ind. intros Hfree.
  destruct (decide (Forall (fun m => suffixed alias m ∈ columns) (seq 0 k))) as [Hall|Hsome].
  - destruct (some_suffixed_name_is_free alias columns) as (k' & Hk' & Hfree').
    exists k. split; [|split; [exact Hfree|]].
    + destruct (decide (k <= length columns)) as [|Hgt]; [done|].
      exfalso. apply Hfree'. rewrite Forall_forall in Hall.
      apply Hall. apply elem_of_seq. lia.
    + intros m Hm. rewrite Forall_forall in Hall. apply Hall. apply elem_of_seq. lia.
  - apply not_Forall_Exists in Hsome; [|intros m; apply _].
    apply Exists_exists in Hsome as (m & Hm & Hfree').
    apply elem_of_seq in Hm. apply (IH m); [lia | exact Hfree'].
Qed.


(** More fuel than needed changes nothing. *)
Lemma determine_loop_more_fuel (alias : string) (columns : list string) (fuel : nat) :
  length columns <= fuel ->
  determine_loop fuel alias columns 1 alias
  = _determine_desccriptor_column_name alias columns.
Proof.
  intros Hfuel.
  destruct (first_free_suffixed_name alias columns) as (k & Hk & Hfree & Htaken).
  unfold _determine_desccriptor_column_name.
  transitivity (Some (suffixed alias k)).
  - apply (determine_loop_spec alias columns fuel 0 k);
      [lia | exact Hfree | intros m Hm; apply Htaken; lia].
  - symmetry.
    apply (determine_loop_spec alias columns (length columns) 0 k);
      [lia | exact Hfree | intros m Hm; apply Htaken; lia].
Qed.



(** ** Applying descriptors *)


Section ApplyDescriptors.
Context `{SeriesReductions} `{OptionsBag}.








(** A descriptor whose [generate_data] raises leaves the dataset as it was. *)
Lemma add_descriptor_raises (descriptor : Descriptor.t) (options : AnyOptions)
    (self : PandasDataset.t) (e : exn) :
  Descriptor.generate_data descriptor self (Options_from_any_options options) = Raise e ->
  add_descriptor descriptor options self = (self, Raise e).
Proof.
  intros Hgenerate.
  unfold add_descriptor, M_bind, M_get, M_lift. by rewrite Hgenerate.
Qed.



End ApplyDescriptors.

Example one_column_dataset_constructed :
  @PandasDataset.__init__ constant_reductions (one_column_table "review") None []
  = (["review"], Return (one_column_dataset "review"))
  /\ @PandasDataset.__init__ constant_reductions (one_column_table "score_1") None []
     = (["score_1"], Return (one_column_dataset "score_1")).
Proof. split; reflexivity. Qed.




(** * Further properties of the module *)

(** ** Construction of the classification definitions *)

(** X1. [BinaryClassification.__init__] returns exactly in two situations:
    the five fields are all omitted, or a target is given together with at
    least one of the two prediction columns.  In particular a call that only
    sets [pos_label] or [labels] raises; [name] plays no part. *)
Theorem BinaryClassification_init_returns_iff :
  forall name_ target_ prediction_labels_ prediction_probas_ pos_label_ labels_,
    (exists spec,
        BinaryClassification.__init__ name_ target_ prediction_labels_ prediction_probas_
          pos_label_ labels_ = Return spec)
    <-> ((target_ = None /\ prediction_labels_ = None /\ prediction_probas_ = None
          /\ pos_label_ = None /\ labels_ = None)
         \/ (is_Some target_ /\ (is_Some prediction_labels_ \/ is_Some prediction_probas_))).
Proof.
  intros name_ target_ prediction_labels_ prediction_probas_ pos_label_ labels_.
  unfold BinaryClassification.__init__.
  destruct target_, prediction_labels_, prediction_probas_, pos_label_, labels_; simpl;
    (split;
     [ intros [spec Hspec]; first [discriminate Hspec | eauto 6]
     | intros [(? & ? & ? & ? & ?)|([? ?] & [[? ?]|[? ?]])];
       first [discriminate | eauto] ]).
Qed.

(** X2. Every [BinaryClassification] that the constructor returns names a
    target, carries at least one prediction column and has a positive label;
    when the caller gave a target, the fields are the caller's, with the
    positive label [1] filled in when omitted. *)
Theorem BinaryClassification_init_result :
  forall name_ target_ prediction_labels_ prediction_probas_ pos_label_ labels_ spec,
    BinaryClassification.__init__ name_ target_ prediction_labels_ prediction_probas_
      pos_label_ labels_ = Return spec ->
    BinaryClassification.name spec = default "default" name_
    /\ (is_Some (BinaryClassification.prediction_labels spec)
        \/ is_Some (BinaryClassification.prediction_probas spec))
    /\ (forall target, target_ = Some target ->
          spec = BinaryClassification.mk (default "default" name_) target
                   prediction_labels_ prediction_probas_
                   (default (PyInt 1) pos_label_) labels_).
Proof.
  intros name_ target_ prediction_labels_ prediction_probas_ pos_label_ labels_ spec.
  unfold BinaryClassification.__init__.
  destruct target_, prediction_labels_, prediction_probas_, pos_label_, labels_; simpl;
    intros Hspec; try discriminate Hspec; injection Hspec as <-; simpl;
    (split; [reflexivity|]); (split; [eauto|]);
    intros target Htarget; try discriminate Htarget; by injection Htarget as <-.
Qed.

(** A target with a label column and no positive label. *)
Lemma BinaryClassification_init_result_witness :
  exists spec,
    BinaryClassification.__init__ (Some "churn") (Some "y") (Some "y_hat") None None None
    = Return spec
    /\ BinaryClassification.name spec = "churn"
    /\ spec = BinaryClassification.mk "churn" "y" (Some "y_hat") None (PyInt 1) None.
Proof.
  eexists. split; [reflexivity|].
  destruct (BinaryClassification_init_result (Some "churn") (Some "y") (Some "y_hat")
              None None None _ eq_refl) as (Hname & _ & Hfields).
  split; [exact Hname | exact (Hfields "y" eq_refl)].
Defined.

(** X3. [MulticlassClassification.__init__] returns exactly when its four
    fields are all omitted or a target comes with a prediction column.  Its
    defaults differ from the binary ones: the column ["prediction"] is taken
    as labels, not as probabilities. *)
Theorem MulticlassClassification_init_returns_iff :
  forall name_ target_ prediction_labels_ prediction_probas_ labels_,
    ((exists spec,
         MulticlassClassification.__init__ name_ target_ prediction_labels_ prediction_probas_
           labels_ = Return spec)
     <-> ((target_ = None /\ prediction_labels_ = None /\ prediction_probas_ = None
           /\ labels_ = None)
          \/ (is_Some target_ /\ (is_Some prediction_labels_ \/ is_Some prediction_probas_))))
    /\ MulticlassClassification.__init__ name_ None None None None
       = Return (MulticlassClassification.mk (default "default" name_) "target"
                   (Some "prediction") None None)
    /\ (forall spec,
          MulticlassClassification.__init__ name_ target_ prediction_labels_ prediction_probas_
            labels_ = Return spec ->
          is_Some (MulticlassClassification.prediction_labels spec)
          \/ is_Some (MulticlassClassification.prediction_probas spec)).
Proof.
  intros name_ target_ prediction_labels_ prediction_probas_ labels_.
  unfold MulticlassClassification.__init__.
  split; [|split; [reflexivity|]].
  - destruct target_, prediction_labels_, prediction_probas_, labels_; simpl;
      (split;
       [ intros [spec Hspec]; first [discriminate Hspec | eauto 6]
       | intros [(? & ? & ? & ?)|([? ?] & [[? ?]|[? ?]])];
         first [discriminate | eauto] ]).
  - intros spec.
    destruct target_, prediction_labels_, prediction_probas_, labels_; simpl;
      intros Hspec; try discriminate Hspec; injection Hspec as <-; simpl; eauto.
Qed.

(** A target with one probability column per class. *)
Lemma MulticlassClassification_init_returns_iff_witness :
  exists spec,
    MulticlassClassification.__init__ None (Some "y") None (Some ["p_a"; "p_b"]) None
    = Return spec
    /\ (is_Some (MulticlassClassification.prediction_labels spec)
        \/ is_Some (MulticlassClassification.prediction_probas spec)).
Proof.
  destruct (MulticlassClassification_init_returns_iff None (Some "y") None
              (Some ["p_a"; "p_b"]) None) as ((_ & Hreturns) & _ & Hresult).
  destruct Hreturns as [spec Hspec]; [right; eauto|].
  exists spec. split; [exact Hspec | exact (Hresult spec Hspec)].
Defined.

(** ** Reading the schema *)

(** A single entry with the looked-up name is what the lookup returns. *)
Lemma lookup_by_name_unique {A : Type} (name : A -> string) (kind : string)
    (before after : list A) (x : A) (id : string) :
  name x = id ->
  (forall y, y ∈ before ++ after -> name y <> id) ->
  DataDefinition.lookup_by_name name kind (Some (before ++ x :: after)) id = Return (Some x).
Proof.
  intros Hx Hothers. unfold DataDefinition.lookup_by_name. simpl.
  rewrite List.filter_app. simpl.
  rewrite (filter_no_match (fun y => String.eqb (name y) id) before)
    by (intros y Hy; apply String.eqb_neq, Hothers, elem_of_app; by left).
  rewrite (filter_no_match (fun y => String.eqb (name y) id) after)
    by (intros y Hy; apply String.eqb_neq, Hothers, elem_of_app; by right).
  apply String.eqb_eq in Hx. rewrite Hx. reflexivity.
Qed.

(** X4. When exactly one entry of a sequence of task definitions carries the
    looked-up name, [get_classification], [get_regression] and [get_ranking]
    return that entry, wherever it stands in the sequence. *)
Theorem lookup_single_match_returns_it :
  forall (d : DataDefinition.t) (id : string),
    (forall before after x,
        DataDefinition.classification d = Some (before ++ x :: after) ->
        Classification_name x = id ->
        (forall y, y ∈ before ++ after -> Classification_name y <> id) ->
        DataDefinition.get_classification d id = Return (Some x))
    /\ (forall before after x,
           DataDefinition.regression d = Some (before ++ x :: after) ->
           Regression.name x = id ->
           (forall y, y ∈ before ++ after -> Regression.name y <> id) ->
           DataDefinition.get_regression d id = Return (Some x))
    /\ (forall before after x,
           DataDefinition.ranking d = Some (before ++ x :: after) ->
           Recsys.name x = id ->
           (forall y, y ∈ before ++ after -> Recsys.name y <> id) ->
           DataDefinition.get_ranking d id = Return (Some x)).
Proof.
  intros d id.
  unfold DataDefinition.get_classification, DataDefinition.get_regression,
    DataDefinition.get_ranking.
  split; [|split]; intros before after x -> Hx Hothers; by apply lookup_by_name_unique.
Qed.

(** Two regressions and two rankings with different names, the looked-up one
    last; a single classification. *)
Lemma lookup_single_match_returns_it_witness :
  let binary := Binary (BinaryClassification.mk "default" "target" None (Some "prediction")
                          (PyInt 1) None) in
  let price := Regression.mk "price" "price" "price_hat" in
  let demand := Regression.mk "demand" "demand" "demand_hat" in
  let home := Recsys.mk "home" "user_id" "target" "prediction" in
  let search := Recsys.mk "search" "user_id" "clicked" "rank" in
  let d := DataDefinition.__init__ None None None None None None
             (Some [binary]) (Some [price; demand]) None None None (Some [home; search]) in
  DataDefinition.get_classification d "default" = Return (Some binary)
  /\ DataDefinition.get_regression d "demand" = Return (Some demand)
  /\ DataDefinition.get_ranking d "search" = Return (Some search).
Proof.
  intros binary price demand home search d.
  destruct (lookup_single_match_returns_it d "default") as (Hcls & _ & _).
  destruct (lookup_single_match_returns_it d "demand") as (_ & Hreg & _).
  destruct (lookup_single_match_returns_it d "search") as (_ & _ & Hrank).
  split; [|split].
  - apply (Hcls [] [] binary); [reflexivity | reflexivity |].
    intros y Hy. inversion Hy.
  - apply (Hreg [price] [] demand); [reflexivity | reflexivity |].
    intros y Hy. apply list_elem_of_singleton in Hy. subst y. discriminate.
  - apply (Hrank [home] [] search); [reflexivity | reflexivity |].
    intros y Hy. apply list_elem_of_singleton in Hy. subst y. discriminate.
Defined.

(** X5. What [get_columns] yields depends only on which types occur in
    [types]: two arguments with the same members, in whatever order and with
    whatever repetitions, yield the same sequence of columns. *)
Theorem get_columns_depends_on_membership :
  forall (self : DataDefinition.t) (types types' : list ColumnType),
    (forall ty, ty ∈ types <-> ty ∈ types') ->
    DataDefinition.get_columns self types = DataDefinition.get_columns self types'.
Proof.
  intros self types types' Hsame.
  unfold DataDefinition.get_columns.
  rewrite !(bool_decide_ext _ _ (Hsame _)). reflexivity.
Qed.

Lemma get_columns_depends_on_membership_witness :
  let self := DataDefinition.__init__ None None (Some ["price"]) (Some ["kind"]) (Some ["note"])
                (Some ["day"]) None None None (Some ["score"]) None None in
  DataDefinition.get_columns self [Text; Numerical; Text]
  = DataDefinition.get_columns self [Numerical; Text]
  /\ DataDefinition.get_columns self [Numerical; Text] = ["price"; "score"; "note"].
Proof.
  intros self. split; [|reflexivity].
  apply get_columns_depends_on_membership.
  intros ty. rewrite !elem_of_cons, !elem_of_nil. tauto.
Defined.

(** ** Column type inference *)

Lemma iloc_first (s : Series.t) (v : scalar) (vs : list scalar) :
  Series.values s = v :: vs -> Series.iloc s 0 = Return v.
Proof.
  intros Hvalues. unfold Series.iloc. rewrite Hvalues. cbv zeta.
  replace (0 <? 0)%Z with false by reflexivity.
  replace ((0 <=? 0)%Z && (0 <? Z.of_nat (length (v :: vs)))%Z) with true; [reflexivity|].
  symmetry. apply andb_true_iff. split; [reflexivity|].
  apply Z.ltb_lt. simpl length. lia.
Qed.

Lemma iloc_last (s : Series.t) (v : scalar) (vs : list scalar) :
  Series.values s = v :: vs -> exists w, Series.iloc s (-1) = Return w.
Proof.
  intros Hvalues. unfold Series.iloc. rewrite Hvalues. cbv zeta.
  replace (-1 <? 0)%Z with true by reflexivity.
  set (n := Z.of_nat (length (v :: vs))).
  assert (0 < n)%Z as Hn by (subst n; simpl length; lia).
  replace ((0 <=? n + -1)%Z && (n + -1 <? n)%Z) with true.
  - destruct ((v :: vs) !! Z.to_nat (n + -1)) as [w|] eqn:Hlookup; [eauto|].
    apply lookup_ge_None in Hlookup. subst n. lia.
  - symmetry. apply andb_true_iff. split; [apply Z.leb_le | apply Z.ltb_lt]; lia.
Qed.


(** On an object column, inference is the two positional accesses followed by
    tests that cannot raise. *)
Lemma infer_object_unfold (column_data : Series.t) :
  Series.dtype_name column_data = "object" ->
  infer_column_type column_data
  = (let without_na := Series.dropna column_data in
     both_str ←
       (first ← Series.iloc without_na 0;
        if is_str first
        then last ← Series.iloc without_na (-1); Return (is_str last)
        else Return false);
     if both_str : bool then
       if PrimFloat.ltb (PrimFloat.mul (float_of_Z (Series.count column_data)) 0.5%float)
                        (float_of_Z (Series.nunique column_data))
       then Return Text
       else Return Categorical
     else
       both_seq ←
         (first ← Series.iloc without_na 0;
          if is_list_or_tuple first
          then last ← Series.iloc without_na (-1); Return (is_list_or_tuple last)
          else Return false);
       if both_seq : bool then Return List else Return Unknown).
Proof.
  intros Hdtype. unfold infer_column_type. rewrite Hdtype. reflexivity.
Qed.

Lemma infer_object_some_value (column_data : Series.t) (v : scalar) (vs : list scalar) :
  Series.dtype_name column_data = "object" ->
  Series.values (Series.dropna column_data) = v :: vs ->
  exists ty, infer_column_type column_data = Return ty
             /\ ty ∈ [Text; Categorical; List; Unknown].
Proof.
  intros Hdtype Hvalues.
  rewrite (infer_object_unfold _ Hdtype). cbv zeta.
  rewrite (iloc_first _ v vs Hvalues).
  destruct (iloc_last _ v vs Hvalues) as [w ->].
  simpl.
  repeat match goal with
         | |- context [if ?b then _ else _] => destruct b; simpl
         end;
    eexists; (split; [reflexivity|]);
    repeat first [apply list_elem_of_here | apply list_elem_of_further].
Qed.

Lemma infer_object_no_value (column_data : Series.t) :
  Series.dtype_name column_data = "object" ->
  Series.values (Series.dropna column_data) = [] ->
  infer_column_type column_data
  = Raise (IndexError "single positional indexer is out-of-bounds").
Proof.
  intros Hdtype Hvalues.
  rewrite (infer_object_unfold _ Hdtype). cbv zeta.
  rewrite (iloc_empty _ 0 Hvalues). reflexivity.
Qed.

Ltac in_list := repeat first [apply list_elem_of_here | apply list_elem_of_further].

(** Outside object storage, inference only tests the dtype name and two
    counts. *)
Lemma infer_other_dtypes (column_data : Series.t) :
  Series.dtype_name column_data <> "object" ->
  exists ty, infer_column_type column_data = Return ty
             /\ ty ∈ [Numerical; Categorical; Text; Datetime; Unknown].
Proof.
  intros Hdtype. apply String.eqb_neq in Hdtype.
  unfold infer_column_type. cbv zeta.
  destruct (String.prefix "float" _); [eexists; split; [reflexivity | in_list]|].
  destruct (String.prefix "int" _).
  { destruct (_ <=? _)%Z; eexists; (split; [reflexivity | in_list]). }
  destruct (bool_decide (_ ∈ ["string"])).
  { destruct (PrimFloat.ltb _ _); eexists; (split; [reflexivity | in_list]). }
  rewrite Hdtype.
  destruct (bool_decide (_ ∈ ["bool"; "category"]));
    [eexists; split; [reflexivity | in_list]|].
  destruct (String.prefix "datetime" _); eexists; (split; [reflexivity | in_list]).
Qed.


(** X7. The type that [infer_column_type] returns is never [Date] nor
    [Id]. *)
Theorem infer_column_type_never_Date_nor_Id :
  forall (column_data : Series.t) (ty : ColumnType),
    infer_column_type column_data = Return ty ->
    ty <> Date /\ ty <> Id.
Proof.
  intros column_data ty Hty.
  assert (ty ∈ [Numerical; Categorical; Text; Datetime; List; Unknown]) as Hin.
  { destruct (decide (Series.dtype_name column_data = "object")) as [Hdtype|Hdtype].
    - destruct (Series.values (Series.dropna column_data)) as [|v vs] eqn:Hvalues.
      + rewrite (infer_object_no_value _ Hdtype Hvalues) in Hty. discriminate.
      + destruct (infer_object_some_value _ v vs Hdtype Hvalues) as (ty' & Hty' & Hin).
        assert (ty' = ty) as -> by congruence.
        apply list_elem_of_In in Hin. apply list_elem_of_In. simpl in Hin |- *. tauto.
    - destruct (infer_other_dtypes _ Hdtype) as (ty' & Hty' & Hin).
      assert (ty' = ty) as -> by congruence.
      apply list_elem_of_In in Hin. apply list_elem_of_In. simpl in Hin |- *. tauto. }
  apply list_elem_of_In in Hin. simpl in Hin.
  split; intros ->; intuition discriminate.
Qed.

(** A datetime column. *)
Lemma infer_column_type_never_Date_nor_Id_witness :
  let column_data := Series.mk "datetime64[ns]" [PyDatetime 1; PyNone] in
  infer_column_type column_data = Return Datetime
  /\ Datetime <> Date /\ Datetime <> Id.
Proof.
  intros column_data.
  assert (infer_column_type column_data = Return Datetime) as Hty by reflexivity.
  split; [exact Hty|].
  exact (infer_column_type_never_Date_nor_Id column_data Datetime Hty).
Defined.

Lemma all_missing_counts (column_data : Series.t) :
  Forall (fun v => isna v = true) (Series.values column_data) ->
  Series.count column_data = 0%Z /\ Series.nunique column_data = 0%Z.
Proof.
  intros Hmissing. apply dropna_all_missing in Hmissing.
  unfold Series.count, Series.nunique.
  unfold Series.dropna in Hmissing. simpl in Hmissing.
  unfold Series.dropna. simpl. rewrite Hmissing. split; reflexivity.
Qed.

(** X8. A column without any non-missing value (an empty column included) is
    inferred [Categorical] under integer storage and under declared string
    storage: zero distinct values are within the cardinality limit, and 0 is
    not above half of 0. *)
Theorem infer_all_missing_is_Categorical :
  forall column_data : Series.t,
    Forall (fun v => isna v = true) (Series.values column_data) ->
    (String.prefix "int" (Series.dtype_name column_data) = true ->
     infer_column_type column_data = Return Categorical)
    /\ (Series.dtype_name column_data = "string" ->
        infer_column_type column_data = Return Categorical).
Proof.
  intros column_data Hmissing.
  destruct (all_missing_counts _ Hmissing) as [Hcount Hunique].
  unfold infer_column_type. cbv zeta. rewrite Hcount, Hunique. split.
  - intros Hint. rewrite Hint.
    destruct (String.prefix "float" _) eqn:Hfloat; [|reflexivity].
    apply String.prefix_correct in Hint, Hfloat.
    destruct (Series.dtype_name column_data) as [|a dtype]; [discriminate Hint|].
    simpl in Hint, Hfloat. congruence.
  - intros ->. reflexivity.
Qed.

Lemma infer_all_missing_is_Categorical_witness :
  infer_column_type (Series.mk "int64" []) = Return Categorical
  /\ infer_column_type (Series.mk "string" [PyNone; PyNone]) = Return Categorical.
Proof.
  destruct (infer_all_missing_is_Categorical (Series.mk "int64" []) (List.Forall_nil _))
    as [Hint _].
  assert (Forall (fun v => isna v = true)
            (Series.values (Series.mk "string" [PyNone; PyNone]))) as Hmissing
    by (repeat apply List.Forall_cons; first [reflexivity | apply List.Forall_nil]).
  destruct (infer_all_missing_is_Categorical (Series.mk "string" [PyNone; PyNone]) Hmissing)
    as [_ Hstring].
  split; [apply Hint | apply Hstring]; reflexivity.
Defined.

(** ** The schema after construction *)

Lemma roles_set_no_unset_role (d : DataDefinition.t) :
  roles_set d <-> PandasDataset.has_unset_role d = false.
Proof.
  unfold roles_set, PandasDataset.has_unset_role.
  destruct (DataDefinition.numerical_columns d), (DataDefinition.categorical_columns d),
    (DataDefinition.text_columns d), (DataDefinition.datetime_columns d); simpl;
    (split; [intros (Hn & Hc & Ht & Hd) | intros Hfalse]);
    first [reflexivity | discriminate | by inversion Hn | by inversion Hc
           | by inversion Ht | by inversion Hd | eauto 8].
Qed.

Lemma generated_roles_set (data : DataFrame.t) (reserved_fields : list string)
    (log log' : PandasDataset.inference_log) (g : DataDefinition.t) :
  PandasDataset._generate_data_definition data reserved_fields log = (log', Return g) ->
  roles_set g.
Proof.
  unfold PandasDataset._generate_data_definition, M_bind, M_ret.
  destruct (PandasDataset.generate_loop _ _ _ _) as [log'' [found|e]]; [|discriminate].
  intros Hg. injection Hg as _ <-.
  unfold roles_set. simpl. eauto.
Qed.

Lemma merge_roles_set (d g : DataDefinition.t) :
  roles_set g -> roles_set (PandasDataset.merge d g).
Proof.
  destruct g as [gi gts gn gc gtx gdt gcl gr gl gnd gcd grk].
  intros ([n Hn] & [c Hc] & [t Ht] & [dt Hdt]). simpl in Hn, Hc, Ht, Hdt. subst.
  destruct d as [i ts dn dc dtx ddt cl r l nd cd rk].
  destruct ts, dn, dc, dtx, ddt, gts; unfold roles_set; simpl; eauto 8.
Qed.

Lemma resolved_roles_set (data : DataFrame.t) (data_definition : option DataDefinition.t)
    (log log' : PandasDataset.inference_log) (d : DataDefinition.t) :
  PandasDataset.resolve_data_definition data data_definition log = (log', Return d) ->
  roles_set d.
Proof.
  unfold PandasDataset.resolve_data_definition.
  destruct data_definition as [user|].
  - destruct (PandasDataset.has_unset_role user) eqn:Hunset.
    + unfold M_bind.
      destruct (PandasDataset._generate_data_definition _ _ _) as [log'' [g|e]] eqn:Hg;
        [|discriminate].
      intros Hd. injection Hd as _ <-.
      apply merge_roles_set. by eapply generated_roles_set.
    + intros Hd. injection Hd as _ <-. by apply roles_set_no_unset_role.
  - unfold M_bind.
    destruct (PandasDataset._generate_data_definition _ _ _) as [log'' [g|e]] eqn:Hg;
      [|discriminate].
    intros Hd. injection Hd as _ <-. by eapply generated_roles_set.
Qed.

Lemma resolve_resolved (data : DataFrame.t) (d : DataDefinition.t)
    (log : PandasDataset.inference_log) :
  roles_set d ->
  PandasDataset.resolve_data_definition data (Some d) log = (log, Return d).
Proof.
  intros Hset. apply roles_set_no_unset_role in Hset.
  unfold PandasDataset.resolve_data_definition. by rewrite Hset.
Qed.

Section Constructed.
Context `{SeriesReductions}.

(** What the constructor returns: the table it was given, the resolved
    schema, and statistics. *)
Lemma init_returns_inv (data : DataFrame.t) (data_definition : option DataDefinition.t)
    (log log' : PandasDataset.inference_log) (self : PandasDataset.t) :
  PandasDataset.__init__ data data_definition log = (log', Return self) ->
  PandasDataset.resolve_data_definition data data_definition log
  = (log', Return (PandasDataset._data_definition self))
  /\ PandasDataset._data self = data.
Proof.
  unfold PandasDataset.__init__, M_bind, M_ret.
  destruct (PandasDataset.resolve_data_definition _ _ _) as [log'' [d|e]]; [|discriminate].
  simpl. intros Hself. injection Hself as <- <-. by split.
Qed.

(** X9. Whatever schema the caller supplies (none, partial or complete), the
    schema of a dataset that the constructor returns has its four role sets
    set: none is left to a later inference. *)
Theorem constructed_schema_is_resolved :
  forall (data : DataFrame.t) (data_definition : option DataDefinition.t)
         (log log' : PandasDataset.inference_log) (self : PandasDataset.t),
    PandasDataset.__init__ data data_definition log = (log', Return self) ->
    roles_set (PandasDataset._data_definition self).
Proof.
  intros data data_definition log log' self Hself.
  apply init_returns_inv in Hself as [Hresolve _].
  by eapply resolved_roles_set.
Qed.

(** X10. Constructing a dataset from the schema of a constructed dataset, on
    any table, runs no inference: schema resolution returns that schema as it
    is without raising and without inspecting a column, and a dataset so
    constructed carries it unchanged.  Resolution is idempotent. *)
Theorem construction_from_resolved_schema :
  forall (data : DataFrame.t) (data_definition : option DataDefinition.t)
         (log log' : PandasDataset.inference_log) (self : PandasDataset.t)
         (data' : DataFrame.t) (log2 : PandasDataset.inference_log),
    PandasDataset.__init__ data data_definition log = (log', Return self) ->
    PandasDataset.resolve_data_definition data' (Some (PandasDataset._data_definition self)) log2
    = (log2, Return (PandasDataset._data_definition self))
    /\ (forall log3 other,
          PandasDataset.__init__ data' (Some (PandasDataset._data_definition self)) log2
          = (log3, Return other) ->
          log3 = log2
          /\ PandasDataset._data_definition other = PandasDataset._data_definition self
          /\ PandasDataset._data other = data').
Proof.
  intros data data_definition log log' self data' log2 Hself.
  apply init_returns_inv in Hself as [Hresolve _].
  apply resolved_roles_set in Hresolve.
  pose proof (resolve_resolved data' _ log2 Hresolve) as Hsame.
  split; [exact Hsame|].
  intros log3 other Hother.
  apply init_returns_inv in Hother as [Hresolve' Hdata].
  rewrite Hsame in Hresolve'. injection Hresolve' as <- <-. by repeat split.
Qed.

End Constructed.

(** A dataset inferred from a table of strings; its schema is then used on
    a table whose only column is an all-missing object column. *)
Lemma constructed_schema_is_resolved_witness :
  exists self,
    @PandasDataset.__init__ constant_reductions (one_column_table "review") None []
    = (["review"], Return self)
    /\ roles_set (PandasDataset._data_definition self).
Proof.
  exists (one_column_dataset "review").
  assert (@PandasDataset.__init__ constant_reductions (one_column_table "review") None []
          = (["review"], Return (one_column_dataset "review"))) as Hself by reflexivity.
  split; [exact Hself|].
  exact (@constructed_schema_is_resolved constant_reductions _ _ _ _ _ Hself).
Defined.

Lemma construction_from_resolved_schema_witness :
  let data' := DataFrame.mk 1 [("note", Series.mk "object" [PyNone])] in
  exists self other,
    @PandasDataset.__init__ constant_reductions (one_column_table "review") None []
    = (["review"], Return self)
    /\ @PandasDataset.__init__ constant_reductions data'
         (Some (PandasDataset._data_definition self)) []
       = ([], Return other)
    /\ PandasDataset._data_definition other = PandasDataset._data_definition self.
Proof.
  intros data'.
  assert (@PandasDataset.__init__ constant_reductions (one_column_table "review") None []
          = (["review"], Return (one_column_dataset "review"))) as Hself by reflexivity.
  destruct (@construction_from_resolved_schema constant_reductions _ _ _ _ _ data' [] Hself)
    as [_ Hcarried].
  destruct (@PandasDataset.__init__ constant_reductions data'
              (Some (PandasDataset._data_definition (one_column_dataset "review"))) [])
    as [log3 [other|e]] eqn:Hother; [|vm_compute in Hother; discriminate Hother].
  destruct (Hcarried log3 other eq_refl) as (-> & Hschema & _).
  exists (one_column_dataset "review"), other.
  split; [exact Hself|]. split; [exact Hother | exact Hschema].
Defined.

(** ** Construction on a table that inference rejects *)

Section FirstFailure.
Variable reserved_fields : list string.

(** The loop of [_generate_data_definition] walks past the columns that are
    reserved or inferred without error, and stops at the first unreserved
    column on which inference raises. *)
Lemma generate_loop_first_failure (before after : list (string * Series.t))
    (column : string) (series : Series.t) (e : exn) :
  forall (acc : buckets) (log : PandasDataset.inference_log),
    (forall item, item ∈ unreserved reserved_fields before ->
                  exists ty, infer_column_type (snd item) = Return ty) ->
    column ∉ reserved_fields ->
    infer_column_type series = Raise e ->
    PandasDataset.generate_loop (before ++ (column, series) :: after) reserved_fields acc log
    = (log ++ List.map fst (unreserved reserved_fields before) ++ [column], Raise e).
Proof.
  induction before as [|[name values] before IH]; intros acc log Hbefore Hfree Hraise.
  - simpl. rewrite bool_decide_eq_false_2 by exact Hfree.
    unfold M_bind, PandasDataset.traced_infer. by rewrite Hraise.
  - simpl. unfold unreserved in *. simpl in *.
    destruct (bool_decide (name ∈ reserved_fields)); simpl in *.
    + by apply IH.
    + unfold M_bind, PandasDataset.traced_infer.
      destruct (Hbefore (name, values)) as [ty Hty]; [constructor|].
      simpl in Hty. rewrite Hty.
      rewrite IH; [by rewrite <- app_assoc | | exact Hfree | exact Hraise].
      intros item Hitem. apply Hbefore. by constructor.
Qed.

End FirstFailure.

Section ConstructionFails.
Context `{SeriesReductions}.

(** X11. When a schema is to be inferred (none given, or one with an unset
    role set), the constructor raises as soon as inference raises on a column
    that the schema does not reserve: the error is that of the first such
    column, the columns after it are not inspected, and no dataset is built.
    A column named in the user's schema is skipped and cannot cause this. *)
Theorem construction_raises_at_first_rejected_column :
  forall (data : DataFrame.t) (data_definition : option DataDefinition.t)
         (before after : list (string * Series.t)) (column : string) (series : Series.t)
         (e : exn) (log : PandasDataset.inference_log),
    (forall d, data_definition = Some d ->
               DataDefinition.numerical_columns d = None
               \/ DataDefinition.categorical_columns d = None
               \/ DataDefinition.text_columns d = None
               \/ DataDefinition.datetime_columns d = None) ->
    DataFrame.items data = before ++ (column, series) :: after ->
    (forall item, item ∈ unreserved (PandasDataset.reserved_fields_of data_definition) before ->
                  exists ty, infer_column_type (snd item) = Return ty) ->
    column ∉ PandasDataset.reserved_fields_of data_definition ->
    infer_column_type series = Raise e ->
    PandasDataset.__init__ data data_definition log
    = (log ++ List.map fst (unreserved (PandasDataset.reserved_fields_of data_definition) before)
           ++ [column],
       Raise e).
Proof.
  intros data data_definition before after column series e log
    Hunset Hitems Hbefore Hfree Hraise.
  assert (PandasDataset._generate_data_definition data
            (PandasDataset.reserved_fields_of data_definition) log
          = (log ++ List.map fst
                      (unreserved (PandasDataset.reserved_fields_of data_definition) before)
                 ++ [column], Raise e)) as Hgenerate.
  { unfold PandasDataset._generate_data_definition, M_bind. rewrite Hitems.
    by rewrite (generate_loop_first_failure _ before after column series e). }
  unfold PandasDataset.__init__, PandasDataset.resolve_data_definition.
  destruct data_definition as [d|].
  - rewrite (has_unset_role_true d (Hunset d eq_refl)).
    unfold M_bind at 1 2. by rewrite Hgenerate.
  - unfold M_bind at 1 2. by rewrite Hgenerate.
Qed.

End ConstructionFails.

(** A table whose second column is an all-missing object column: without a
    schema the constructor raises at that column and never looks at the
    third. *)
Lemma construction_raises_at_first_rejected_column_witness :
  let kind := ("kind", Series.mk "int64" [PyInt 1; PyInt 2]) in
  let note := Series.mk "object" [PyNone; PyNone] in
  let price := ("price", Series.mk "float64" [PyFloat 1; PyFloat 2]) in
  let data := DataFrame.mk 2 [kind; ("note", note); price] in
  @PandasDataset.__init__ constant_reductions data None []
  = (["kind"; "note"], Raise (IndexError "single positional indexer is out-of-bounds")).
Proof.
  intros kind note price data.
  apply (@construction_raises_at_first_rejected_column constant_reductions data None
           [kind] [price] "note" note
           (IndexError "single positional indexer is out-of-bounds") []).
  - intros d Hd. discriminate Hd.
  - reflexivity.
  - intros item Hitem. apply list_elem_of_singleton in Hitem. subst item.
    exists Categorical. reflexivity.
  - apply not_elem_of_nil.
  - reflexivity.
Defined.

(** ** A schema inferred from scratch *)

Lemma unreserved_nil (items : list (string * Series.t)) : unreserved [] items = items.
Proof.
  induction items as [|item items IH]; [reflexivity|].
  change (unreserved [] (item :: items))
    with (if negb (bool_decide (fst item ∈ @nil string))
          then item :: unreserved [] items else unreserved [] items).
  rewrite bool_decide_eq_false_2 by apply not_elem_of_nil. simpl. by rewrite IH.
Qed.

(** When the loop returns, inference returned on every unreserved column. *)
Lemma generate_loop_returns_inv (reserved_fields : list string)
    (items : list (string * Series.t)) :
  forall (acc found : buckets) (log log' : PandasDataset.inference_log),
    PandasDataset.generate_loop items reserved_fields acc log = (log', Return found) ->
    forall item, item ∈ unreserved reserved_fields items ->
                 infer_column_type (snd item) = Return (inferred_type (snd item)).
Proof.
  induction items as [|[column series] items IH]; intros acc found log log' Hloop item Hitem.
  - inversion Hitem.
  - simpl in Hloop. unfold unreserved in *. simpl in Hitem.
    destruct (bool_decide (column ∈ reserved_fields)); simpl in Hitem.
    + by eapply IH.
    + unfold M_bind, PandasDataset.traced_infer in Hloop.
      destruct (infer_column_type series) as [ty|e] eqn:Hty; [|discriminate].
      apply elem_of_cons in Hitem as [->|Hitem].
      * simpl. unfold inferred_type. by rewrite Hty.
      * by eapply IH.
Qed.

Lemma elem_of_candidates (inferred : Series.t -> ColumnType) (ty : ColumnType)
    (items : list (string * Series.t)) (name : string) :
  name ∈ candidates inferred ty items
  <-> exists series, (name, series) ∈ items /\ inferred series = ty.
Proof.
  unfold candidates. rewrite list_elem_of_In, in_map_iff. split.
  - intros ([name' series] & Hname & Hin). simpl in Hname. subst name'.
    apply filter_In in Hin as [Hin Hty]. apply bool_decide_eq_true in Hty.
    exists series. split; [by apply list_elem_of_In | exact Hty].
  - intros (series & Hin & Hty). exists (name, series). split; [reflexivity|].
    apply filter_In. split; [by apply list_elem_of_In | by apply bool_decide_eq_true].
Qed.

Lemma labelled_once (items : list (string * Series.t)) (name : string)
    (series series' : Series.t) :
  NoDup (List.map fst items) ->
  (name, series) ∈ items -> (name, series') ∈ items -> series = series'.
Proof.
  induction items as [|[k v] items IH]; intros Hnodup Hin Hin'; [inversion Hin|].
  simpl in Hnodup. apply NoDup_cons in Hnodup as [Hfresh Hnodup].
  assert (forall w, (k, w) ∈ items -> False) as Hnot.
  { intros w Hw. apply Hfresh. apply list_elem_of_In, in_map_iff.
    exists (k, w). split; [reflexivity | by apply list_elem_of_In]. }
  apply elem_of_cons in Hin as [Heq|Hin], Hin' as [Heq'|Hin'].
  - congruence.
  - injection Heq as -> ->. destruct (Hnot _ Hin').
  - injection Heq' as -> ->. destruct (Hnot _ Hin).
  - by apply IH.
Qed.

Lemma candidates_NoDup (inferred : Series.t -> ColumnType) (ty : ColumnType)
    (items : list (string * Series.t)) :
  NoDup (List.map fst items) -> NoDup (candidates inferred ty items).
Proof.
  unfold candidates.
  induction items as [|[k v] items IH]; intros Hnodup; [constructor|].
  simpl in Hnodup. apply NoDup_cons in Hnodup as [Hfresh Hnodup].
  simpl. destruct (bool_decide (inferred v = ty)); [|by apply IH].
  simpl. apply NoDup_cons. split; [|by apply IH].
  intros Hin. apply Hfresh.
  apply list_elem_of_In, in_map_iff in Hin as ([k' v'] & Hk & Hin). simpl in Hk. subst k'.
  apply filter_In in Hin as [Hin _].
  apply list_elem_of_In, in_map_iff. by exists (k, v').
Qed.

Lemma candidates_of_column (inferred : Series.t -> ColumnType) (ty : ColumnType)
    (items : list (string * Series.t)) (name : string) (series : Series.t) :
  NoDup (List.map fst items) -> (name, series) ∈ items ->
  name ∈ candidates inferred ty items <-> inferred series = ty.
Proof.
  intros Hnodup Hin. rewrite elem_of_candidates. split.
  - intros (series' & Hin' & Hty).
    by rewrite (labelled_once items name series series' Hnodup Hin Hin').
  - intros Hty. by exists series.
Qed.

Section InferredSchema.
Context `{SeriesReductions}.

(** The schema of a dataset constructed without a user schema, in terms of
    the types inferred for the columns of the table. *)
Lemma init_without_schema (data : DataFrame.t) (log log' : PandasDataset.inference_log)
    (self : PandasDataset.t) :
  PandasDataset.__init__ data None log = (log', Return self) ->
  let items := DataFrame.items data in
  log' = log ++ DataFrame.columns data
  /\ PandasDataset._data_definition self
     = DataDefinition.mk None
         (match candidates inferred_type Datetime items with [t] => Some t | _ => None end)
         (Some (candidates inferred_type Numerical items))
         (Some (candidates inferred_type Categorical items))
         (Some (candidates inferred_type Text items))
         (Some (match candidates inferred_type Datetime items with [_] => [] | l => l end))
         None None None [] [] None.
Proof.
  intros Hself items.
  apply init_returns_inv in Hself as [Hresolve _].
  unfold PandasDataset.resolve_data_definition, M_bind in Hresolve. simpl in Hresolve.
  destruct (PandasDataset._generate_data_definition data [] log) as [log'' [g|e]] eqn:Hg;
    [|discriminate].
  injection Hresolve as -> <-.
  assert (forall item, item ∈ unreserved [] (DataFrame.items data) ->
                       infer_column_type (snd item) = Return (inferred_type (snd item)))
    as Hinfer.
  { unfold PandasDataset._generate_data_definition, M_bind in Hg.
    destruct (PandasDataset.generate_loop _ _ _ _) as [log'' [found|e]] eqn:Hloop;
      [|discriminate].
    by eapply generate_loop_returns_inv. }
  rewrite (generate_data_definition_spec [] inferred_type data log Hinfer) in Hg.
  rewrite unreserved_nil in Hg. injection Hg as <- <-. by split.
Qed.

(** X12. In the schema of a dataset constructed without a user schema, no
    column of the table appears twice: the four role sets and the timestamp
    are pairwise disjoint, each holds only columns of the table, and
    inference ran once on every column, in table order. *)
Theorem inferred_roles_are_disjoint :
  forall (data : DataFrame.t) (log log' : PandasDataset.inference_log)
         (self : PandasDataset.t),
    NoDup (DataFrame.columns data) ->
    PandasDataset.__init__ data None log = (log', Return self) ->
    let d := PandasDataset._data_definition self in
    let names := default [] (DataDefinition.numerical_columns d)
                 ++ default [] (DataDefinition.categorical_columns d)
                 ++ default [] (DataDefinition.text_columns d)
                 ++ default [] (DataDefinition.datetime_columns d)
                 ++ option_list (DataDefinition.timestamp d) in
    NoDup names
    /\ (forall name, name ∈ names -> name ∈ DataFrame.columns data)
    /\ log' = log ++ DataFrame.columns data.
Proof.
  intros data log log' self Hnodup Hself d names.
  destruct (init_without_schema _ _ _ _ Hself) as [Hlog Hd].
  assert (names
          = candidates inferred_type Numerical (DataFrame.items data)
            ++ candidates inferred_type Categorical (DataFrame.items data)
            ++ candidates inferred_type Text (DataFrame.items data)
            ++ candidates inferred_type Datetime (DataFrame.items data)) as ->.
  { subst names d. rewrite Hd. simpl.
    destruct (candidates inferred_type Datetime (DataFrame.items data)) as [|t [|t' l]];
      simpl; by rewrite ?app_nil_r. }
  split; [|split; [|exact Hlog]].
  - assert (forall ty, NoDup (candidates inferred_type ty (DataFrame.items data))) as Heach
      by (intros ty; by apply candidates_NoDup).
    assert (forall ty ty' name, ty <> ty' ->
              name ∈ candidates inferred_type ty (DataFrame.items data) ->
              name ∉ candidates inferred_type ty' (DataFrame.items data)) as Hapart.
    { intros ty ty' name Hne Hin Hin'.
      apply elem_of_candidates in Hin as (series & Hitem & Hty).
      apply (candidates_of_column _ _ _ _ _ Hnodup Hitem) in Hin'. congruence. }
    repeat (apply NoDup_app; split; [apply Heach|]; split; [|]);
      try apply Heach;
      intros name Hin; rewrite ?not_elem_of_app;
      repeat split; eapply Hapart; eauto; discriminate.
  - intros name Hname.
    assert (exists ty, name ∈ candidates inferred_type ty (DataFrame.items data))
      as [ty Hty].
    { rewrite !elem_of_app in Hname.
      destruct Hname as [Hname|[Hname|[Hname|Hname]]]; eauto. }
    apply elem_of_candidates in Hty as (series & Hitem & _).
    apply list_elem_of_In, in_map_iff. exists (name, series).
    split; [reflexivity | by apply list_elem_of_In].
Qed.

(** X13. After construction without a user schema, [get_column_type] reports
    for every column of the table what inference found for it: [Numerical],
    [Categorical] and [Text] as inferred; a datetime column is [Date] when it
    is the only datetime column of the table (it became the timestamp) and
    [Datetime] otherwise; a column inferred as a list or as unknown is
    [Unknown]. *)
Theorem column_type_after_inference :
  forall (data : DataFrame.t) (log log' : PandasDataset.inference_log)
         (self : PandasDataset.t) (name : string) (series : Series.t),
    NoDup (DataFrame.columns data) ->
    PandasDataset.__init__ data None log = (log', Return self) ->
    (name, series) ∈ DataFrame.items data ->
    infer_column_type series = Return (inferred_type series)
    /\ DataDefinition.get_column_type (PandasDataset._data_definition self) name
       = match inferred_type series with
         | Numerical => Numerical
         | Categorical => Categorical
         | Text => Text
         | Datetime =>
             match candidates inferred_type Datetime (DataFrame.items data) with
             | [_] => Date
             | _ => Datetime
             end
         | _ => Unknown
         end.
Proof.
  intros data log log' self name series Hnodup Hself Hitem.
  destruct (init_without_schema _ _ _ _ Hself) as [_ Hd].
  split.
  { apply init_returns_inv in Hself as [Hresolve _].
    unfold PandasDataset.resolve_data_definition, M_bind in Hresolve. simpl in Hresolve.
    destruct (PandasDataset._generate_data_definition data [] log) as [log'' [g|e]] eqn:Hg;
      [|discriminate].
    unfold PandasDataset._generate_data_definition, M_bind in Hg.
    destruct (PandasDataset.generate_loop _ _ _ _) as [log3 [found|e]] eqn:Hloop;
      [|discriminate].
    apply (generate_loop_returns_inv _ _ _ _ _ _ Hloop (name, series)).
    by rewrite unreserved_nil. }
  rewrite Hd.
  pose proof (fun ty => candidates_of_column inferred_type ty _ name series Hnodup Hitem)
    as Hmember.
  unfold DataDefinition.get_column_type, DataDefinition.get_numerical_columns,
    DataDefinition.get_categorical_columns, DataDefinition.get_text_columns,
    DataDefinition.get_datetime_columns.
  simpl. rewrite !app_nil_r.
  pose proof (Hmember Numerical) as Hnum. pose proof (Hmember Categorical) as Hcat.
  pose proof (Hmember Text) as Htext. pose proof (Hmember Datetime) as Hdt.
  clear Hmember Hd.
  generalize dependent (candidates inferred_type Numerical (DataFrame.items data)).
  generalize dependent (candidates inferred_type Categorical (DataFrame.items data)).
  generalize dependent (candidates inferred_type Text (DataFrame.items data)).
  generalize dependent (candidates inferred_type Datetime (DataFrame.items data)).
  intros dts Hdt texts Htext cats Hcat nums Hnum.
  rewrite (bool_decide_ext _ _ Hnum), (bool_decide_ext _ _ Hcat), (bool_decide_ext _ _ Htext).
  clear Hnum Hcat Htext nums cats texts.
  destruct (inferred_type series); simpl; try reflexivity.
  - assert (name ∈ dts) as Hin by (by apply Hdt).
    destruct dts as [|t [|t' rest]].
    + inversion Hin.
    + apply list_elem_of_singleton in Hin. subst t. simpl.
      by rewrite bool_decide_eq_true_2.
    + by rewrite bool_decide_eq_true_2.
  - assert (name ∉ dts) as Hnot by (rewrite Hdt; discriminate).
    destruct dts as [|t [|t' rest]]; simpl.
    + reflexivity.
    + rewrite (bool_decide_eq_false_2 (Some name = Some t)); [reflexivity|].
      intros Heq. injection Heq as ->. apply Hnot. constructor.
    + by rewrite bool_decide_eq_false_2.
  - assert (name ∉ dts) as Hnot by (rewrite Hdt; discriminate).
    destruct dts as [|t [|t' rest]]; simpl.
    + reflexivity.
    + rewrite (bool_decide_eq_false_2 (Some name = Some t)); [reflexivity|].
      intros Heq. injection Heq as ->. apply Hnot. constructor.
    + by rewrite bool_decide_eq_false_2.
  - assert (name ∉ dts) as Hnot by (rewrite Hdt; discriminate).
    destruct dts as [|t [|t' rest]]; simpl.
    + reflexivity.
    + rewrite (bool_decide_eq_false_2 (Some name = Some t)); [reflexivity|].
      intros Heq. injection Heq as ->. apply Hnot. constructor.
    + by rewrite bool_decide_eq_false_2.
  - assert (name ∉ dts) as Hnot by (rewrite Hdt; discriminate).
    destruct dts as [|t [|t' rest]]; simpl.
    + reflexivity.
    + rewrite (bool_decide_eq_false_2 (Some name = Some t)); [reflexivity|].
      intros Heq. injection Heq as ->. apply Hnot. constructor.
    + by rewrite bool_decide_eq_false_2.
Qed.

End InferredSchema.

Lemma inferred_roles_are_disjoint_witness :
  exists self,
    @PandasDataset.__init__ constant_reductions three_column_table None []
    = (["kind"; "price"; "day"], Return self)
    /\ NoDup (default [] (DataDefinition.numerical_columns (PandasDataset._data_definition self))
              ++ default [] (DataDefinition.categorical_columns
                               (PandasDataset._data_definition self))
              ++ default [] (DataDefinition.text_columns (PandasDataset._data_definition self))
              ++ default [] (DataDefinition.datetime_columns
                               (PandasDataset._data_definition self))
              ++ option_list (DataDefinition.timestamp (PandasDataset._data_definition self))).
Proof.
  destruct (@PandasDataset.__init__ constant_reductions three_column_table None [])
    as [log' [self|e]] eqn:Hself; [|vm_compute in Hself; discriminate Hself].
  assert (NoDup (DataFrame.columns three_column_table)) as Hnodup
    by compute_done.
  destruct (@inferred_roles_are_disjoint constant_reductions _ _ _ _ Hnodup Hself)
    as (Hdisjoint & _ & Hlog).
  exists self. split; [by rewrite Hlog | exact Hdisjoint].
Defined.

(** In [three_column_table] the only datetime column, [day], reads as [Date]. *)
Lemma column_type_after_inference_witness :
  exists self,
    @PandasDataset.__init__ constant_reductions three_column_table None []
    = (["kind"; "price"; "day"], Return self)
    /\ DataDefinition.get_column_type (PandasDataset._data_definition self) "day" = Date
    /\ DataDefinition.get_column_type (PandasDataset._data_definition self) "kind"
       = Categorical.
Proof.
  destruct (@PandasDataset.__init__ constant_reductions three_column_table None [])
    as [log' [self|e]] eqn:Hself; [|vm_compute in Hself; discriminate Hself].
  assert (NoDup (DataFrame.columns three_column_table)) as Hnodup
    by compute_done.
  assert (log' = ["kind"; "price"; "day"]) as ->
    by (vm_compute in Hself; by injection Hself as <- _).
  exists self. split; [reflexivity|]. split.
  - destruct (@column_type_after_inference constant_reductions _ _ _ _ "day"
                (Series.mk "datetime64[ns]" [PyDatetime 1; PyDatetime 2]) Hnodup Hself)
      as [_ Hday]; [apply list_elem_of_In; simpl; tauto|].
    exact Hday.
  - destruct (@column_type_after_inference constant_reductions _ _ _ _ "kind"
                (Series.mk "int64" [PyInt 1; PyInt 2]) Hnodup Hself)
      as [_ Hkind]; [apply list_elem_of_In; simpl; tauto|].
    exact Hkind.
Defined.


(** ** The statistics of a constructed dataset *)

Section StatisticsPass.
Context {A : Type} (collect : string -> Series.t -> A).

(** The loop that fills [column_stats], one assignment per column. *)
Lemma stats_pass_other (items : list (string * Series.t)) :
  forall (acc : gmap string A) (name : string),
    name ∉ List.map fst items ->
    foldl (fun (stats : gmap string A) (item : string * Series.t) =>
             let (column, series) := item in <[column := collect column series]> stats)
          acc items !! name
    = acc !! name.
Proof.
  induction items as [|[column series] items IH]; intros acc name Hfresh; [reflexivity|].
  simpl in Hfresh. apply not_elem_of_cons in Hfresh as [Hne Hfresh].
  simpl. rewrite IH by exact Hfresh. by apply lookup_insert_ne.
Qed.

Lemma stats_pass_column (items : list (string * Series.t)) :
  forall (acc : gmap string A) (name : string) (series : Series.t),
    NoDup (List.map fst items) ->
    (name, series) ∈ items ->
    foldl (fun (stats : gmap string A) (item : string * Series.t) =>
             let (column, series) := item in <[column := collect column series]> stats)
          acc items !! name
    = Some (collect name series).
Proof.
  induction items as [|[column values] items IH]; intros acc name series Hnodup Hin;
    [inversion Hin|].
  simpl in Hnodup. apply NoDup_cons in Hnodup as [Hfresh Hnodup].
  simpl. apply elem_of_cons in Hin as [Heq|Hin].
  - injection Heq as -> ->. rewrite stats_pass_other by exact Hfresh.
    apply lookup_insert_eq.
  - by apply IH.
Qed.

Lemma stats_pass_domain (items : list (string * Series.t)) (name : string) :
  is_Some (foldl (fun (stats : gmap string A) (item : string * Series.t) =>
                    let (column, series) := item in <[column := collect column series]> stats)
                 ∅ items !! name)
  <-> name ∈ List.map fst items.
Proof.
  assert (forall acc : gmap string A,
             is_Some (foldl (fun (stats : gmap string A) (item : string * Series.t) =>
                               let (column, series) := item in
                               <[column := collect column series]> stats)
                            acc items !! name)
             <-> name ∈ List.map fst items \/ is_Some (acc !! name)) as Hgeneral.
  { induction items as [|[column series] items IH]; intros acc.
    - simpl. rewrite elem_of_nil. tauto.
    - simpl. rewrite IH, elem_of_cons.
      destruct (decide (name = column)) as [->|Hne].
      + rewrite lookup_insert_eq. split; [left; by left | intros _; right; eauto].
      + rewrite lookup_insert_ne by congruence. tauto. }
  rewrite Hgeneral, lookup_empty. split; [intros [?|[? ?]]; [done | discriminate] | by left].
Qed.

End StatisticsPass.

Section ConstructedStatistics.
Context `{SeriesReductions}.

(** X14. The statistics of a dataset that the constructor returns cover the
    table exactly: the row count is the length of the index, the column count
    is the number of columns, a column has an entry if and only if it is in
    the table, and the entry of a column is what [_collect_stats] computes
    from its values under the type that the resolved schema gives to it. *)
Theorem constructed_statistics_cover_table :
  forall (data : DataFrame.t) (data_definition : option DataDefinition.t)
         (log log' : PandasDataset.inference_log) (self : PandasDataset.t),
    NoDup (DataFrame.columns data) ->
    PandasDataset.__init__ data data_definition log = (log', Return self) ->
    stats_match_table self
    /\ DatasetStats.row_count (PandasDataset._dataset_stats self) = DataFrame.index_size data
    /\ (forall name series,
          (name, series) ∈ DataFrame.items data ->
          DatasetStats.column_stats (PandasDataset._dataset_stats self) !! name
          = Some (_collect_stats
                    (DataDefinition.get_column_type (PandasDataset._data_definition self) name)
                    series)).
Proof.
  intros data data_definition log log' self Hnodup Hself.
  unfold PandasDataset.__init__, M_bind, M_ret in Hself.
  destruct (PandasDataset.resolve_data_definition _ _ _) as [log'' [d|e]]; [|discriminate].
  simpl in Hself. injection Hself as <- <-.
  unfold stats_match_table. simpl.
  split; [split; [exact Hnodup | split]|split].
  - unfold DataFrame.columns. by rewrite length_map.
  - intros name. apply stats_pass_domain.
  - reflexivity.
  - intros name series Hin.
    by apply (stats_pass_column
                (fun column series => _collect_stats (DataDefinition.get_column_type d column)
                                        series)).
Qed.

End ConstructedStatistics.

Lemma constructed_statistics_cover_table_witness :
  exists self,
    @PandasDataset.__init__ constant_reductions three_column_table None []
    = (["kind"; "price"; "day"], Return self)
    /\ stats_match_table self
    /\ DatasetStats.row_count (PandasDataset._dataset_stats self) = 2%Z
    /\ DatasetStats.column_count (PandasDataset._dataset_stats self) = 3%Z.
Proof.
  destruct (@PandasDataset.__init__ constant_reductions three_column_table None [])
    as [log' [self|e]] eqn:Hself; [|vm_compute in Hself; discriminate Hself].
  assert (NoDup (DataFrame.columns three_column_table)) as Hnodup by compute_done.
  assert (log' = ["kind"; "price"; "day"]) as ->
    by (vm_compute in Hself; by injection Hself as <- _).
  destruct (@constructed_statistics_cover_table constant_reductions _ _ _ _ _ Hnodup Hself)
    as (Hmatch & Hrows & _).
  exists self. split; [reflexivity|]. split; [exact Hmatch|]. split; [exact Hrows|].
  destruct Hmatch as (_ & Hcount & _).
  apply init_returns_inv in Hself as [_ Hdata]. rewrite Hcount, Hdata. reflexivity.
Defined.

(** ** Invariants of the descriptor pipeline *)


Lemma M_for_app {S A : Type} (body : A -> M S unit) (xs ys : list A) (s : S) :
  M_for (xs ++ ys) body s
  = match M_for xs body s with
    | (s', Return _) => M_for ys body s'
    | (s', Raise e) => (s', Raise e)
    end.
Proof.
  revert s. induction xs as [|x xs IH]; intros s; [reflexivity|].
  cbn [app M_for]. unfold M_bind.
  destruct (body x s) as [s' [u|e]]; [apply IH | reflexivity].
Qed.



Section PipelineInvariants.
Context `{SeriesReductions} `{OptionsBag}.





End PipelineInvariants.


(** ** Reading a column back *)



Lemma getitem_absent (df : DataFrame.t) (key : string) :
  key ∉ DataFrame.columns df -> DataFrame.getitem df key = Raise (KeyError key).
Proof.
  unfold DataFrame.getitem, DataFrame.columns.
  induction (DataFrame.items df) as [|[k w] cols IH]; intros Habsent; [reflexivity|].
  simpl in Habsent |- *. apply not_elem_of_cons in Habsent as [Hne Habsent].
  rewrite (proj2 (String.eqb_neq k key)) by congruence. by apply IH.
Qed.

Lemma getitem_present (df : DataFrame.t) (key : string) :
  key ∈ DataFrame.columns df ->
  exists series, DataFrame.getitem df key = Return series
                 /\ (key, series) ∈ DataFrame.items df.
Proof.
  unfold DataFrame.getitem, DataFrame.columns.
  induction (DataFrame.items df) as [|[k w] cols IH]; intros Hin; [inversion Hin|].
  simpl in Hin |- *. destruct (String.eqb k key) eqn:Heq.
  - apply String.eqb_eq in Heq. subst k. exists w. split; [reflexivity | constructor].
  - apply elem_of_cons in Hin as [->|Hin]; [by rewrite String.eqb_refl in Heq|].
    destruct (IH Hin) as (series & Hget & Hitem).
    exists series. split; [exact Hget | by constructor].
Qed.

Section ReadBack.
Context `{SeriesReductions}.



End ReadBack.



(** ** Sequences of descriptors *)

Section DescriptorSequences.
Context `{SeriesReductions} `{OptionsBag}.

(** X18. Applying a concatenation of descriptor lists is applying the first
    list and then, if it returned, the second on the dataset it left.  There
    is no rollback: when a descriptor raises after others were applied, the
    dataset keeps every column added before it, the descriptors after it are
    not run, and the error is the one of the failing descriptor. *)
Theorem add_descriptors_in_sequence :
  forall (applied later : list Descriptor.t) (options : AnyOptions) (self : PandasDataset.t),
    add_descriptors (applied ++ later) options self
    = match add_descriptors applied options self with
      | (middle, Return _) => add_descriptors later options middle
      | (middle, Raise e) => (middle, Raise e)
      end
    /\ (forall (failing : Descriptor.t) (middle : PandasDataset.t) (e : exn),
          add_descriptors applied options self = (middle, Return tt) ->
          Descriptor.generate_data failing middle (Options_from_any_options options) = Raise e ->
          add_descriptors (applied ++ failing :: later) options self = (middle, Raise e)).
Proof.
  intros applied later options self.
  assert (forall ds, add_descriptors (applied ++ ds) options self
                     = match add_descriptors applied options self with
                       | (middle, Return _) => add_descriptors ds options middle
                       | (middle, Raise e) => (middle, Raise e)
                       end) as Happ
    by (intros ds; apply M_for_app).
  split; [apply Happ|].
  intros failing middle e Happlied Hraise.
  rewrite Happ, Happlied.
  unfold add_descriptors. cbn [M_for]. unfold M_bind.
  by rewrite (add_descriptor_raises _ _ _ _ Hraise).
Qed.

End DescriptorSequences.

(** A ["score"] descriptor, then the abstract descriptor, then another
    ["score"] descriptor: the first column stays, the third is never added. *)
Lemma add_descriptors_in_sequence_witness :
  let self := one_column_dataset "review" in
  let run := @add_descriptors constant_reductions unit_options
               ([score_descriptor] ++ abstract_descriptor :: [score_descriptor]) tt self in
  snd run = Raise NotImplementedError
  /\ DataFrame.columns (PandasDataset._data (fst run)) = ["review"; "score"].
Proof.
  intros self run.
  destruct (@add_descriptors_in_sequence constant_reductions unit_options
              [score_descriptor] [score_descriptor] tt self) as [_ Hfails].
  assert (run = (fst (@add_descriptors constant_reductions unit_options
                        [score_descriptor] tt self), Raise NotImplementedError)) as ->.
  { apply (Hfails abstract_descriptor); reflexivity. }
  split; reflexivity.
Defined.

(** ** Sub-datasets *)

Lemma count_selected {A : Type} (f : A -> bool) (l : list A) :
  length (List.filter (fun b : bool => b) (List.map f l)) = length (List.filter f l).
Proof.
  induction l as [|x l IH]; [reflexivity|].
  simpl. destruct (f x); simpl; by rewrite IH.
Qed.

Lemma select_columns (mask : list bool) (df : DataFrame.t) :
  DataFrame.columns (DataFrame.select mask df) = DataFrame.columns df.
Proof.
  unfold DataFrame.columns, DataFrame.select. simpl.
  rewrite List.map_map. by apply List.map_ext.
Qed.

Section SubDataset.
Context `{SeriesReductions} `{CellComparison}.

(** X19. On a dataset whose schema is resolved, [subdataset] raises
    [KeyError] for a label the table does not have; otherwise it returns a
    dataset with the same schema (no column is inferred again), the same
    column labels, and as many rows as the column has cells equal to the
    label. *)
Theorem subdataset_keeps_schema :
  forall (self : PandasDataset.t) (column_name : string) (label : scalar)
         (log : PandasDataset.inference_log),
    roles_set (PandasDataset._data_definition self) ->
    (column_name ∉ DataFrame.columns (PandasDataset._data self) ->
     PandasDataset.subdataset self column_name label log = (log, Raise (KeyError column_name)))
    /\ (forall series,
          DataFrame.getitem (PandasDataset._data self) column_name = Return series ->
          exists sub,
            PandasDataset.subdataset self column_name label log = (log, Return sub)
            /\ PandasDataset._data_definition sub = PandasDataset._data_definition self
            /\ DataFrame.columns (PandasDataset._data sub)
               = DataFrame.columns (PandasDataset._data self)
            /\ DatasetStats.row_count (PandasDataset._dataset_stats sub)
               = Z.of_nat (length (List.filter (fun v => cell_eq v label)
                                     (Series.values series)))).
Proof.
  intros self column_name label log Hresolved. split.
  - intros Habsent. unfold PandasDataset.subdataset, M_bind, M_lift.
    by rewrite (getitem_absent _ _ Habsent).
  - intros series Hseries.
    unfold PandasDataset.subdataset, M_bind at 1, M_lift. rewrite Hseries.
    unfold PandasDataset.__init__, M_bind.
    rewrite (resolve_resolved _ _ log Hresolved).
    eexists. split; [reflexivity|]. simpl.
    split; [reflexivity|]. split; [apply select_columns|].
    by rewrite count_selected.
Qed.

End SubDataset.

(** The rows of [segment_table] in segment ["x"]: three of five. *)
Lemma subdataset_keeps_schema_witness :
  exists self sub,
    @PandasDataset.__init__ constant_reductions segment_table None []
    = (["segment"; "amount"], Return self)
    /\ @PandasDataset.subdataset constant_reductions by_value self "segment" (PyStr "x") []
       = ([], Return sub)
    /\ PandasDataset._data_definition sub = PandasDataset._data_definition self
    /\ DatasetStats.row_count (PandasDataset._dataset_stats sub) = 3%Z.
Proof.
  destruct (@PandasDataset.__init__ constant_reductions segment_table None [])
    as [log' [self|e]] eqn:Hself; [|vm_compute in Hself; discriminate Hself].
  assert (log' = ["segment"; "amount"]) as ->
    by (vm_compute in Hself; by injection Hself as <- _).
  pose proof (init_returns_inv _ _ _ _ _ Hself) as [Hresolve Hdata].
  apply resolved_roles_set in Hresolve.
  destruct (@subdataset_keeps_schema constant_reductions by_value self "segment"
              (PyStr "x") [] Hresolve) as [_ Hpresent].
  destruct (Hpresent (Series.mk "object" [PyStr "x"; PyStr "y"; PyStr "x"; PyStr "x"; PyStr "z"]))
    as (sub & Hsub & Hschema & _ & Hrows); [by rewrite Hdata|].
  exists self, sub. split; [reflexivity|]. split; [exact Hsub|]. split; [exact Hschema|].
  rewrite Hrows. reflexivity.
Defined.

(** ** The most common label of collected statistics *)







(** ** From a table to a dataset *)


Section FromPandas.
Context `{SeriesReductions} `{OptionsBag}.




End FromPandas.

